(** * Timing-based memory-hierarchy probes: detection logic

    A shallow embedding of the breakpoint detectors, the pointer-chase
    builder and the majority vote of [cache_info.c], [cache_info_cores.c]
    and [tlb_info.c].

    - A C [double] is a primitive binary64 float; [/], [<] and [>] are
      the IEEE operations ([PrimFloat.div], [PrimFloat.ltb]).
    - A C array is a list; a read is a lookup, so that an index outside
      the array makes the whole computation [None].
    - What the hardware decides is an argument: whether [malloc]
      succeeds, the ticks a timed region took, the values [rand()]
      returns, and what a fresh block or an automatic array holds
      before it is written. *)

From Stdlib Require Import ZArith Lia Floats Sorted.
From stdpp Require Import base option list gmap.

Set Warnings "-inexact-float".

Abbreviation double := float (only parsing).

(** [(double)z] for an unsigned integer: round to nearest, ties to even. *)
Definition double_of_Z (z : Z) : double :=
  SF2Prim (binary_normalize prec emax z 0 false).

(** The indices of [for (s = lo; s < hi; s++)]. *)
Definition range (lo hi : nat) : list nat := seq lo (hi - lo).

(** An array that held [buf] when it was declared and whose first
    [length curve] entries have since been written with [curve]. *)
Definition store_prefix {A} (buf curve : list A) : list A :=
  curve ++ drop (length curve) buf.

(** [a[s] / a[s-1]], the ratio every detector looks at. *)
Definition ratio (a : list double) (s : nat) : option double :=
  cur ← a !! s; prev ← a !! (s - 1); Some (cur / prev)%float.

(** ** cache_info.c *)
Module CacheInfo.

Definition strides : list Z := [8; 16; 32; 64; 128; 256; 512; 1024]%Z.
Definition num_strides : nat := length strides.

(** Lines 87-95: the scan over [norm_times]. *)
Fixpoint line_size_scan (norm_times : list double) (ss : list nat)
    (detected : Z) : option Z :=
  match ss with
  | [] => Some detected
  | s :: ss' =>
      growth_before ← ratio norm_times s;
      growth_after ← ratio norm_times (s + 1);
      if (1.3 <? growth_before)%float && (growth_after <? 1.3)%float
      then strides !! s
      else line_size_scan norm_times ss' detected
  end.

Definition detect_line_size (norm_times : list double) : option Z :=
  line_size_scan norm_times (range 2 (num_strides - 1)) 64.

(** Lines 62-85: one entry of [norm_times] per stride, from the ticks
    the three timed passes took together. *)
Definition sample_line_size (total_time : nat → Z) (s : nat) : option double :=
  stride ← strides !! s;
  let ARRAY_SIZE := (32 * 1024 * 1024)%Z in
  let ITERATIONS := 3%Z in
  let num_accesses := (ARRAY_SIZE / stride)%Z in
  let avg_time :=
    (double_of_Z (total_time s) / double_of_Z (ITERATIONS * num_accesses))%float in
  Some (avg_time * double_of_Z stride)%float.

Definition probe_cache_line_size (malloc_ok : bool) (total_time : nat → Z)
    (stack : list double) : option Z :=
  if negb malloc_ok then Some 64%Z
  else
    curve ← mapM (sample_line_size total_time) (range 0 num_strides);
    detect_line_size (store_prefix stack curve).

(** Lines 102-130.  [rnd k] is the value of the k-th call of [rand()]
    made here, [array] the caller's block of [count] elements, [heap]
    what the fresh block of [count] elements for [chase] holds.
    Element values are indices below [count]; [count = 0] is outside
    the model ([count - 1] wraps around in the source). *)
Fixpoint init_successors (array : list nat) (ix : list nat) (count : nat)
    : list nat :=
  match ix with
  | [] => array
  | i :: ix' => init_successors (<[i := (i + 1) mod count]> array) ix' count
  end.

Fixpoint shuffle (rnd : nat → nat) (k : nat) (i : nat) (array : list nat)
    : option (list nat) :=
  match i with
  | 0 => Some array
  | S i' =>
      let j := rnd k mod (i + 1) in
      temp ← array !! i;
      aj ← array !! j;
      shuffle rnd (S k) i' (<[j := temp]> (<[i := aj]> array))
  end.

Fixpoint link_chase (array : list nat) (ix : list nat) (pos : nat)
    (visited chase : list nat) : option (list nat) :=
  match ix with
  | [] => Some chase
  | i :: ix' =>
      ai ← array !! i;
      if decide (pos < length chase)
      then link_chase array ix' ai (<[pos := 1]> visited) (<[pos := ai]> chase)
      else None
  end.

Fixpoint copy_back (array chase : list nat) (ix : list nat)
    : option (list nat) :=
  match ix with
  | [] => Some array
  | i :: ix' => ci ← chase !! i; copy_back (<[i := ci]> array) chase ix'
  end.

Definition create_pointer_chase (rnd : nat → nat) (heap : list nat)
    (array : list nat) (count : nat) : option (list nat) :=
  if decide (count = 0) then None
  else
    let array := init_successors array (range 0 count) count in
    array ← shuffle rnd 0 (count - 1) array;
    let visited := replicate count 0 in
    chase ← link_chase array (range 0 count) 0 visited (take count heap);
    copy_back array chase (range 0 count).

Definition sizes : list Z :=
  [ 4*1024; 8*1024; 16*1024; 32*1024; 48*1024; 64*1024; 96*1024; 128*1024;
    192*1024; 256*1024; 384*1024; 512*1024; 768*1024; 1024*1024; 1536*1024;
    2*1024*1024; 3*1024*1024; 4*1024*1024; 6*1024*1024; 8*1024*1024;
    12*1024*1024; 16*1024*1024; 24*1024*1024; 32*1024*1024 ]%Z.
Definition num_sizes : nat := length sizes.

(** Lines 189-198: one iteration of the tier scan. *)
Definition cache_sizes_step (times : list double) (st : Z * Z * Z) (s : nat)
    : option (Z * Z * Z) :=
  let '(l1_size, l2_size, l3_size) := st in
  r ← ratio times s;
  prev_size ← sizes !! (s - 1);
  if (l1_size =? 0)%Z && (prev_size <=? 192*1024)%Z && (1.3 <? r)%float
  then Some (prev_size, l2_size, l3_size)
  else if (l2_size =? 0)%Z && (192*1024 <? prev_size)%Z
          && (prev_size <=? 16*1024*1024)%Z && (1.3 <? r)%float
  then Some (l1_size, prev_size, l3_size)
  else if (l3_size =? 0)%Z && (4*1024*1024 <? prev_size)%Z && (1.5 <? r)%float
  then Some (l1_size, l2_size, prev_size)
  else Some st.

Fixpoint cache_sizes_scan (times : list double) (ss : list nat)
    (st : Z * Z * Z) : option (Z * Z * Z) :=
  match ss with
  | [] => Some st
  | s :: ss' => st' ← cache_sizes_step times st s; cache_sizes_scan times ss' st'
  end.

Definition detect_cache_sizes (times : list double) : option (Z * Z * Z) :=
  cache_sizes_scan times (range 1 num_sizes) (0, 0, 0)%Z.

(** Lines 147-183: the sweep stops at the first footprint whose
    [malloc] fails; the entries of [times] from there on are never
    written.  The chase array only decides how long the timed region
    takes, which is [total_time]'s to say. *)
Fixpoint sample_cache_sizes (malloc_ok : nat → bool) (total_time : nat → Z)
    (ss : list nat) : option (list double) :=
  match ss with
  | [] => Some []
  | s :: ss' =>
      size ← sizes !! s;
      let count := (size / 8)%Z in
      let accesses := (count * 4)%Z in
      if negb (malloc_ok s) then Some []
      else
        let ITERATIONS := 5%Z in
        rest ← sample_cache_sizes malloc_ok total_time ss';
        Some ((double_of_Z (total_time s) / double_of_Z (ITERATIONS * accesses))%float
              :: rest)
  end.

Definition probe_cache_sizes (malloc_ok : nat → bool) (total_time : nat → Z)
    (stack : list double) : option (Z * Z * Z) :=
  curve ← sample_cache_sizes malloc_ok total_time (range 0 num_sizes);
  detect_cache_sizes (store_prefix stack curve).

Definition ways_to_test : list Z := [2; 4; 6; 8; 10; 12; 14; 16; 20; 24; 32]%Z.
Definition num_tests : nat := length ways_to_test.

(** Lines 248-256: no [break]; [max_ratio] and [detected] move together. *)
Fixpoint associativity_scan (times : list double) (ts : list nat)
    (detected : Z) (max_ratio : double) : option Z :=
  match ts with
  | [] => Some detected
  | t :: ts' =>
      r ← ratio times t;
      if (max_ratio <? r)%float && (1.3 <? r)%float
      then w ← ways_to_test !! (t - 1); associativity_scan times ts' w r
      else associativity_scan times ts' detected max_ratio
  end.

Definition detect_associativity (times : list double) : option Z :=
  associativity_scan times (range 1 num_tests) 8 1.0%float.

Definition sample_associativity (total_time : nat → Z) (t : nat) : option double :=
  num_addrs ← ways_to_test !! t;
  let ITERATIONS := 100%Z in
  let ACCESSES_PER_ITER := 10000%Z in
  Some (double_of_Z (total_time t)
        / double_of_Z (ITERATIONS * ACCESSES_PER_ITER * num_addrs))%float.

Definition probe_associativity (malloc_ok : bool) (total_time : nat → Z)
    (stack : list double) : option Z :=
  if negb malloc_ok then Some 8%Z
  else
    curve ← mapM (sample_associativity total_time) (range 0 num_tests);
    detect_associativity (store_prefix stack curve).

End CacheInfo.

(** ** cache_info_cores.c *)
Module CacheInfoCores.

(** Lines 37-47: the two loops of [CacheInfo.create_pointer_chase] that
    fill and shuffle [array], and nothing after them. *)
Definition create_pointer_chase (rnd : nat → nat) (array : list nat)
    (count : nat) : option (list nat) :=
  if decide (count = 0) then None
  else
    let array := CacheInfo.init_successors array (range 0 count) count in
    CacheInfo.shuffle rnd 0 (count - 1) array.

Definition strides : list Z := [8; 16; 32; 64; 128; 256]%Z.

(** Lines 75-82. *)
Fixpoint line_size_scan (norm_times : list double) (ss : list nat)
    (detected : Z) : option Z :=
  match ss with
  | [] => Some detected
  | s :: ss' =>
      growth_before ← ratio norm_times s;
      growth_after ← ratio norm_times (s + 1);
      if (1.3 <? growth_before)%float && (growth_after <? 1.3)%float
      then strides !! s
      else line_size_scan norm_times ss' detected
  end.

Definition detect_line_size (norm_times : list double) : option Z :=
  line_size_scan norm_times (range 2 5) 64.

Definition sample_line_size (elapsed : nat → Z) (s : nat) : option double :=
  stride ← strides !! s;
  let ARRAY_SIZE := (16 * 1024 * 1024)%Z in
  let num_accesses := (ARRAY_SIZE / stride)%Z in
  Some (double_of_Z (elapsed s) / double_of_Z num_accesses
        * double_of_Z stride)%float.

Definition probe_cache_line_size (malloc_ok : bool) (elapsed : nat → Z)
    (stack : list double) : option Z :=
  if negb malloc_ok then Some 64%Z
  else
    curve ← mapM (sample_line_size elapsed) (range 0 6);
    detect_line_size (store_prefix stack curve).

End CacheInfoCores.

(** ** tlb_info.c *)
Module TlbInfo.

Definition strides : list Z := [512; 1024; 2048; 4096; 8192; 16384]%Z.
Definition num_strides : nat := length strides.

(** Lines 88-95. *)
Fixpoint page_size_scan (times : list double) (ss : list nat)
    (detected : Z) : option Z :=
  match ss with
  | [] => Some detected
  | s :: ss' =>
      r ← ratio times s;
      if (r <? 0.6)%float
      then strides !! (s - 1)
      else page_size_scan times ss' detected
  end.

Definition detect_page_size (times : list double) : option Z :=
  page_size_scan times (range 2 num_strides) 4096.

Definition sample_page_size (total_time : nat → Z) (s : nat) : option double :=
  stride ← strides !! s;
  let ARRAY_SIZE := (128 * 1024 * 1024)%Z in
  let ITERATIONS := 3%Z in
  let num_accesses := (ARRAY_SIZE / stride)%Z in
  Some (double_of_Z (total_time s) / double_of_Z (ITERATIONS * num_accesses))%float.

Definition probe_page_size (malloc_ok : bool) (total_time : nat → Z)
    (stack : list double) : option Z :=
  if negb malloc_ok then Some 4096%Z
  else
    curve ← mapM (sample_page_size total_time) (range 0 num_strides);
    detect_page_size (store_prefix stack curve).

Definition pages_to_test : list Z :=
  [8; 16; 32; 64; 128; 256; 512; 1024; 2048; 4096]%Z.
Definition num_tests : nat := length pages_to_test.

(** Lines 174-182. *)
Fixpoint tlb_size_scan (times : list double) (ts : list nat)
    (detected : Z) : option Z :=
  match ts with
  | [] => Some detected
  | t :: ts' =>
      r ← ratio times t;
      if (1.25 <? r)%float
      then pages_to_test !! (t - 1)
      else tlb_size_scan times ts' detected
  end.

Definition detect_tlb_size (times : list double) : option Z :=
  tlb_size_scan times (range 1 num_tests) 64.

(** Lines 124-172.  [page_size] sizes the buffer and spaces the chase;
    it reaches the result through the ticks only.  [order] is allocated
    without a check; that
    [malloc] is taken to succeed. *)
Fixpoint sample_tlb_size (total_time : nat → Z) (ts : list nat)
    : option (list double) :=
  match ts with
  | [] => Some []
  | t :: ts' =>
      num_pages ← pages_to_test !! t;
      let MAX_PAGES := 4096%Z in
      if (MAX_PAGES <? num_pages)%Z then Some []
      else
        let ITERATIONS := 5%Z in
        let accesses := (num_pages * 200)%Z in
        rest ← sample_tlb_size total_time ts';
        Some ((double_of_Z (total_time t) / double_of_Z (ITERATIONS * accesses))%float
              :: rest)
  end.

Definition probe_tlb_size (page_size : Z) (malloc_ok : bool)
    (total_time : nat → Z) (stack : list double) : option Z :=
  if negb malloc_ok then Some 64%Z
  else
    curve ← sample_tlb_size total_time (range 0 num_tests);
    detect_tlb_size (store_prefix stack curve).

(** Lines 197-209: the vote over [results]. *)
Fixpoint count_equal (results : list Z) (js : list nat) (ri : Z) (count : Z)
    : option Z :=
  match js with
  | [] => Some count
  | j :: js' =>
      rj ← results !! j;
      count_equal results js' ri (if decide (rj = ri) then count + 1 else count)%Z
  end.

Fixpoint vote_scan (results : list Z) (ix : list nat) (tlb_size max_count : Z)
    : option Z :=
  match ix with
  | [] => Some tlb_size
  | i :: ix' =>
      ri ← results !! i;
      count ← count_equal results (range 0 10) ri 0;
      if (max_count <? count)%Z
      then vote_scan results ix' ri count
      else vote_scan results ix' tlb_size max_count
  end.

Definition most_frequent (results : list Z) : option Z :=
  r0 ← results !! 0;
  vote_scan results (range 0 10) r0 1.

(** What one call of a probe meets: the outcome of its [malloc], the
    ticks of its timed regions, the old contents of its [times]. *)
Record probe_env := ProbeEnv {
  malloc_ok : bool;
  total_time : nat → Z;
  stack : list double
}.

(** Lines 188-214; the result is the pair of numbers printed. *)
Definition main (page_env : probe_env) (tlb_env : nat → probe_env)
    : option (Z * Z) :=
  page_size ← probe_page_size (malloc_ok page_env) (total_time page_env)
                (stack page_env);
  results ← mapM (λ i, probe_tlb_size page_size (malloc_ok (tlb_env i))
                         (total_time (tlb_env i)) (stack (tlb_env i)))
               (range 0 10);
  tlb_size ← most_frequent results;
  Some (page_size, tlb_size).

End TlbInfo.

(** ** The properties the probes are checked against *)

(** The [n + 1] positions of a traversal [idx = array[idx]] that starts
    at [idx] and takes [n] steps. *)
Fixpoint trace (array : list nat) (n : nat) (idx : nat) : option (list nat) :=
  match n with
  | 0 => Some [idx]
  | S n' => next ← array !! idx; rest ← trace array n' next; Some (idx :: rest)
  end.

(** From [start], [length array] steps stay inside the array, pass
    through no element twice, and end on [start] again. *)
Definition cycle_from (array : list nat) (start : nat) : Prop :=
  ∃ t, trace array (length array) start = Some t
       ∧ NoDup (take (length array) t)
       ∧ Forall (λ x, x < length array) t
       ∧ last t = Some start.

Definition single_cycle (array : list nat) : Prop :=
  ∀ start, start < length array → cycle_from array start.

(** A curve that is [lo] below index [k] and [hi] from [k] on, followed
    by whatever the array holds after index [k + 1]. *)
Definition step_curve (k : nat) (lo hi : double) (after : list double)
    : list double :=
  replicate k lo ++ hi :: hi :: after.

(** The ratio at [s] exists and is above [thr]. *)
Definition jump (thr : double) (times : list double) (s : nat) : bool :=
  match ratio times s with
  | Some r => (thr <? r)%float
  | None => false
  end.

(** The ratio at [t] exists and is strictly below the ratio at [t']. *)
Definition ratio_lt (times : list double) (t t' : nat) : bool :=
  match ratio times t, ratio times t' with
  | Some r, Some r' => (r <? r')%float
  | _, _ => false
  end.

(** Among the positions 1 .. n-1 the ratio at [t] is above [thr] and
    strictly above every other ratio. *)
Definition single_largest_jump (thr : double) (times : list double)
    (n t : nat) : Prop :=
  1 ≤ t < n ∧ jump thr times t = true
  ∧ ∀ t', 1 ≤ t' < n → t' ≠ t → ratio_lt times t' t = true.

(** The tier tests of the cache-size scan at sweep position [s]: the
    footprint before [s] lies in the tier's range and the ratio at [s]
    is above the tier's threshold. *)
Definition l1_jump (times : list double) (s : nat) : bool :=
  match CacheInfo.sizes !! (s - 1) with
  | Some prev_size => (prev_size <=? 192*1024)%Z && jump 1.3 times s
  | None => false
  end.

Definition l2_jump (times : list double) (s : nat) : bool :=
  match CacheInfo.sizes !! (s - 1) with
  | Some prev_size =>
      (192*1024 <? prev_size)%Z && (prev_size <=? 16*1024*1024)%Z
      && jump 1.3 times s
  | None => false
  end.

Definition l3_jump (times : list double) (s : nat) : bool :=
  match CacheInfo.sizes !! (s - 1) with
  | Some prev_size => (4*1024*1024 <? prev_size)%Z && jump 1.5 times s
  | None => false
  end.

(** An L3 jump at a footprint other than the one L2 holds. *)
Definition l3_free_jump (times : list double) (l2_size : Z) (s : nat) : bool :=
  match CacheInfo.sizes !! (s - 1) with
  | Some prev_size => l3_jump times s && negb (prev_size =? l2_size)%Z
  | None => false
  end.

(** [size] is the footprint before the first position in 1 .. n-1 that
    passes the test [q], or 0 when no position passes it. *)
Definition first_jump (n : nat) (q : nat → bool) (size : Z) : Prop :=
  (size = 0%Z ∧ ∀ s, 1 ≤ s < n → q s = false)
  ∨ ∃ s, 1 ≤ s < n ∧ CacheInfo.sizes !! (s - 1) = Some size ∧ q s = true
         ∧ ∀ s', 1 ≤ s' < s → q s' = false.

(** How often [v] occurs in [results]. *)
Definition occurrences (results : list Z) (v : Z) : Z :=
  Z.of_nat (length (filter (λ r, r = v) results)).

(** ** Curves, runs and scan invariants used in the statements *)

(** The normalized times of the end-to-end scenario, strides 8 .. 1024. *)
Definition synthetic_curve : list double :=
  [1.0; 1.0; 1.05; 1.4; 1.42; 1.0; 1.0; 1.0]%float.

(** Ten latencies with a ratio of 1.5 at position 1 and of 4 at
    position 5; every other ratio is 1. *)
Definition tlb_curve : list double :=
  [1; 1.5; 1.5; 1.5; 1.5; 6; 6; 6; 6; 6]%float.

(** The associativity scan after the positions 1 .. n-1: either nothing
    was above 1.3 yet, or [w] and [max_ratio] belong to a position [t]
    whose ratio no position so far exceeds and which every earlier
    ratio above 1.3 stays strictly below. *)
Definition assoc_inv (times : list double) (n : nat) (w : Z) (max_ratio : double)
    : Prop :=
  (w = 8%Z ∧ max_ratio = 1.0%float
   ∧ ∀ t' r', 1 ≤ t' < n → ratio times t' = Some r' → (1.3 <? r')%float = false)
  ∨ ∃ t, 1 ≤ t < n
         ∧ CacheInfo.ways_to_test !! (t - 1) = Some w
         ∧ ratio times t = Some max_ratio
         ∧ (1.3 <? max_ratio)%float = true
         ∧ (∀ t' r', 1 ≤ t' < n → ratio times t' = Some r' →
                     (max_ratio <? r')%float = false)
         ∧ (∀ t' r', 1 ≤ t' < t → ratio times t' = Some r' →
                     (1.3 <? r')%float = true → (r' <? max_ratio)%float = true).

(** The vote after the indices below [n]: [tlb_size] stands at some
    index [i0], [max_count] is its number of occurrences once the first
    index is done, no value seen so far occurs more often, and every
    value before [i0] occurs less often. *)
Definition vote_inv (results : list Z) (n : nat) (tlb_size max_count : Z) : Prop :=
  ∃ i0, results !! i0 = Some tlb_size ∧ i0 ≤ n
        ∧ (1 ≤ max_count ≤ occurrences results tlb_size)%Z
        ∧ (1 ≤ n → max_count = occurrences results tlb_size)
        ∧ (∀ j v, j < n → results !! j = Some v →
                  (occurrences results v ≤ max_count)%Z)
        ∧ (∀ j v, j < i0 → results !! j = Some v →
                  (occurrences results v < max_count)%Z).

(** The ten synthetic TLB-probe results. *)
Definition ten_results : list Z := [64; 64; 128; 64; 64; 64; 32; 64; 64; 128]%Z.

(** A run of the TLB probe whose latency doubles at sweep index [k]. *)
Definition doubling_at (k : nat) : TlbInfo.probe_env :=
  TlbInfo.ProbeEnv true
    (λ t, let slow : Z := if decide (k ≤ t) then 2%Z else 1%Z in
          Z.mul (Z.mul (default 0%Z (TlbInfo.pages_to_test !! t)) 1000) slow)
    (replicate 12 0%float).

(** A run of the page-size probe in which every stride takes the same
    number of ticks for its three passes. *)
Definition steady_page_run : TlbInfo.probe_env :=
  TlbInfo.ProbeEnv true (λ _, 3000000%Z) (replicate 8 0%float).

(** Ten runs whose latency doubles after 64, 64, 128, 64, 64, 64, 32, 64,
    64 and 128 pages. *)
Definition ten_runs (i : nat) : TlbInfo.probe_env :=
  doubling_at (default 0 ([4; 4; 5; 4; 4; 4; 3; 4; 4; 5] !! i)).

(** The tier scan after the positions 1 .. n-1. *)
Definition cache_sizes_inv (times : list double) (n : nat) (st : Z * Z * Z)
    : Prop :=
  let '(l1_size, l2_size, l3_size) := st in
  first_jump n (l1_jump times) l1_size
  ∧ first_jump n (l2_jump times) l2_size
  ∧ first_jump n (l3_free_jump times l2_size) l3_size.

(** Flat up to 6 MiB, twice as slow from 8 MiB, four times from 16 MiB:
    the ratio is 2 at the sweep positions 19 and 21. *)
Definition two_jump_curve : list double :=
  replicate 19 1%float ++ replicate 2 2%float ++ replicate 3 4%float.

(** Every call of [rand()] returns 0. *)
Definition rand_zero (k : nat) : nat := 0.

(** The first two footprints are sampled, the third [malloc] fails. *)
Definition third_malloc_fails (s : nat) : bool := bool_decide (s < 2).

(** One tick per access at 4 KiB, two at 8 KiB. *)
Definition ticks_doubling (s : nat) : Z :=
  if decide (s = 0) then 10240%Z else 40960%Z.

(** ** tlb_info.c: the page chase of [probe_tlb_size] *)
Module TlbChase.

(** Line 130: [order[i] = i]. *)
Fixpoint init_order (order : list nat) (ix : list nat) : list nat :=
  match ix with
  | [] => order
  | i :: ix' => init_order (<[i := i]> order) ix'
  end.

(** Lines 139-141.  [mem] holds the words written into the buffer, by
    byte offset; pages are [page_size] bytes apart. *)
Fixpoint link_pages (order : list nat) (page_size : nat) (ix : list nat)
    (mem : gmap nat nat) : option (gmap nat nat) :=
  match ix with
  | [] => Some mem
  | i :: ix' =>
      oi ← order !! i;
      next ← order !! (i + 1);
      link_pages order page_size ix' (<[oi * page_size := next * page_size]> mem)
  end.

(** Lines 129-142: fill [order], shuffle it (the loop of lines 133-136
    is the shuffle of [cache_info.c], on [order]), link each page to the
    next one in [order] and the last one to the first. *)
Definition build_chase (rnd : nat → nat) (order : list nat) (page_size : nat)
    (num_pages : nat) (mem : gmap nat nat) : option (list nat * gmap nat nat) :=
  let order := init_order order (range 0 num_pages) in
  order ← CacheInfo.shuffle rnd 0 (num_pages - 1) order;
  mem ← link_pages order page_size (range 0 (num_pages - 1)) mem;
  last_page ← order !! (num_pages - 1);
  first_page ← order !! 0;
  Some (order, <[last_page * page_size := first_page * page_size]> mem).


End TlbChase.

(** ** cache_info_cores.c: [probe_cache_sizes] *)
Module CoresCacheSizes.

Definition sizes : list Z :=
  [ 8*1024; 16*1024; 32*1024; 48*1024; 64*1024; 96*1024; 128*1024;
    192*1024; 256*1024; 384*1024; 512*1024; 768*1024; 1024*1024;
    2*1024*1024; 4*1024*1024; 8*1024*1024; 16*1024*1024 ]%Z.
Definition num_sizes : nat := 17.

(** Lines 125-131: one iteration of the scan. *)
Definition cache_sizes_step (times : list double) (st : Z * Z) (s : nat)
    : option (Z * Z) :=
  let '(l1_size, l2_size) := st in
  r ← ratio times s;
  prev_size ← sizes !! (s - 1);
  if (l1_size =? 0)%Z && (prev_size <=? 128*1024)%Z && (1.3 <? r)%float
  then Some (prev_size, l2_size)
  else if (l2_size =? 0)%Z && (128*1024 <? prev_size)%Z && (1.3 <? r)%float
  then Some (l1_size, prev_size)
  else Some st.

Fixpoint cache_sizes_scan (times : list double) (ss : list nat) (st : Z * Z)
    : option (Z * Z) :=
  match ss with
  | [] => Some st
  | s :: ss' => st' ← cache_sizes_step times st s; cache_sizes_scan times ss' st'
  end.

Definition detect_cache_sizes (times : list double) : option (Z * Z) :=
  cache_sizes_scan times (range 1 num_sizes) (0, 0)%Z.

(** Lines 99-120: one timed pass per footprint; the sweep stops at the
    first footprint whose [malloc] fails. *)
Fixpoint sample_cache_sizes (malloc_ok : nat → bool) (elapsed : nat → Z)
    (ss : list nat) : option (list double) :=
  match ss with
  | [] => Some []
  | s :: ss' =>
      size ← sizes !! s;
      let count := (size / 8)%Z in
      if negb (malloc_ok s) then Some []
      else
        rest ← sample_cache_sizes malloc_ok elapsed ss';
        Some ((double_of_Z (elapsed s) / double_of_Z (count * 4))%float :: rest)
  end.

Definition probe_cache_sizes (malloc_ok : nat → bool) (elapsed : nat → Z)
    (stack : list double) : option (Z * Z) :=
  curve ← sample_cache_sizes malloc_ok elapsed (range 0 num_sizes);
  detect_cache_sizes (store_prefix stack curve).

End CoresCacheSizes.

(** The two tier tests of [CoresCacheSizes] at sweep position [s]. *)
Definition cores_l1_jump (times : list double) (s : nat) : bool :=
  match CoresCacheSizes.sizes !! (s - 1) with
  | Some prev_size => (prev_size <=? 128*1024)%Z && jump 1.3 times s
  | None => false
  end.

Definition cores_l2_jump (times : list double) (s : nat) : bool :=
  match CoresCacheSizes.sizes !! (s - 1) with
  | Some prev_size => (128*1024 <? prev_size)%Z && jump 1.3 times s
  | None => false
  end.

(** [first_jump] over the footprints of [cache_info_cores.c]. *)
Definition cores_first_jump (n : nat) (q : nat → bool) (size : Z) : Prop :=
  (size = 0%Z ∧ ∀ s, 1 ≤ s < n → q s = false)
  ∨ ∃ s, 1 ≤ s < n ∧ CoresCacheSizes.sizes !! (s - 1) = Some size ∧ q s = true
         ∧ ∀ s', 1 ≤ s' < s → q s' = false.

(** ** The report of the sizes *)
Module Report.

Inductive tier := L1 | L2 | L3.
Inductive size_unit := KB | MB.

Definition bytes_of (u : size_unit) : Z :=
  match u with KB => 1024 | MB => 1024 * 1024 end%Z.

(** [cache_info.c], lines 271-280: the size lines [main] prints, each
    as the tier, the number printed and the unit after it. *)
Definition size_lines (l1_size l2_size l3_size : Z)
    : list (tier * Z * size_unit) :=
  [(L1, l1_size / 1024, KB)%Z]
  ++ (if (0 <? l2_size)%Z
      then [if (1024 * 1024 <=? l2_size)%Z
            then (L2, l2_size / (1024 * 1024), MB)%Z
            else (L2, l2_size / 1024, KB)%Z]
      else [])
  ++ (if (0 <? l3_size)%Z then [(L3, l3_size / (1024 * 1024), MB)%Z] else []).

(** [cache_info_cores.c], lines 142-148: the size lines of [run_tests]. *)
Definition cores_size_lines (l1_size l2_size : Z) : list (tier * Z * size_unit) :=
  [(L1, l1_size / 1024, KB)%Z]
  ++ (if (0 <? l2_size)%Z
      then [if (1024 * 1024 <=? l2_size)%Z
            then (L2, l2_size / (1024 * 1024), MB)%Z
            else (L2, l2_size / 1024, KB)%Z]
      else []).

End Report.

(** ** The timed region *)
Module Timing.

(** Arithmetic on [uint64_t]. *)
Definition uint64 (z : Z) : Z := z mod 2 ^ 64.

(** [cache_info.c], lines 17-21: the counter from the two halves that
    [rdtsc] leaves in [lo] and [hi]. *)
Definition get_time (lo hi : Z) : Z :=
  uint64 (Z.lor (Z.shiftl hi 32) lo).

(** Lines 66-80: [total_time] over [iters] timed passes.  [clock k] is
    what the k-th call of [get_time] returns; every pass calls it
    twice. *)
Fixpoint timed_passes (clock : nat → Z) (k : nat) (iters : nat) (total_time : Z)
    : Z :=
  match iters with
  | 0 => total_time
  | S iters' =>
      let start := clock k in
      let end_ := clock (S k) in
      timed_passes clock (S (S k)) iters' (uint64 (total_time + uint64 (end_ - start)))
  end.

End Timing.

(** The ticks that really passed during the timed passes, when the
    k-th reading is taken at time [T k]. *)
Fixpoint ticks_passed (T : nat → Z) (k : nat) (iters : nat) : Z :=
  match iters with
  | 0 => 0%Z
  | S iters' => (T (S k) - T k + ticks_passed T (S (S k)) iters')%Z
  end.

(** A curve over the footprints of [cache_info.c] with one jump, after
    the 1536 KiB footprint. *)
Definition jump_after_1536K : list double :=
  replicate 15 1%float ++ replicate 9 2%float.

(** ** Tests of the scans, for the statements about them *)

(** The test of the line-size scan at [s]: the ratio at [s] is above 1.3
    and the ratio at [s + 1] is below 1.3. *)
Definition rise_then_level (norm_times : list double) (s : nat) : bool :=
  match ratio norm_times s, ratio norm_times (s + 1) with
  | Some growth_before, Some growth_after =>
      (1.3 <? growth_before)%float && (growth_after <? 1.3)%float
  | _, _ => false
  end.

(** The test of the page-size scan at [s]: the ratio at [s] exists and
    is below [thr]. *)
Definition drop_below (thr : double) (times : list double) (s : nat) : bool :=
  match ratio times s with
  | Some r => (r <? thr)%float
  | None => false
  end.

(** ** Proof steps *)

Ltac elem_here :=
  repeat first [apply list_elem_of_here | apply list_elem_of_further].

Ltac not_elem :=
  let H := fresh in
  intros H; repeat (apply elem_of_cons in H as [H|H]; [discriminate H|]);
  by apply elem_of_nil in H.

Ltac elem_cases H :=
  repeat (apply elem_of_cons in H as [->|H]); [..|apply elem_of_nil in H; destruct H].

(** ** Binary64 facts *)
Section Binary64.

Open Scope float_scope.

Lemma new_location_zero m : new_location (Zpos m) 0 = loc_Exact.
Proof. unfold new_location. destruct (Z.even (Zpos m)); reflexivity. Qed.

Lemma SFdiv_core_self m e :
  SFdiv_core_binary prec emax (Zpos m) e (Zpos m) e
  = ((2 ^ 53)%Z, (-53)%Z, loc_Exact).
Proof.
  unfold SFdiv_core_binary.
  replace (Zdigits2 (Zpos m) + e - (Zdigits2 (Zpos m) + e))%Z with 0%Z by lia.
  rewrite Z.sub_diag.
  change (Z.min (fexp prec emax 0) 0) with (-53)%Z.
  change (0 - -53)%Z with 53%Z.
  cbv iota beta zeta.
  rewrite Z.shiftl_mul_pow2 by lia.
  assert (H : Z.div_eucl (Zpos m * 2 ^ 53) (Zpos m) = ((2 ^ 53)%Z, 0%Z)).
  { pose proof (Z.div_eucl_eq (Zpos m * 2 ^ 53) (Zpos m)) as He.
    pose proof (Z.mod_pos_bound (Zpos m * 2 ^ 53) (Zpos m)) as Hb.
    unfold Z.modulo in Hb.
    destruct (Z.div_eucl (Zpos m * 2 ^ 53) (Zpos m)) as [q r].
    specialize (Hb ltac:(lia)). specialize (He ltac:(lia)).
    assert (q = 2 ^ 53)%Z by nia. assert (r = 0)%Z by nia. congruence. }
  rewrite H, new_location_zero. reflexivity.
Qed.

(** A finite nonzero number divided by itself is exactly one. *)
Lemma SF64div_finite_self sx m e :
  SF64div (S754_finite sx m e) (S754_finite sx m e) = Prim2SF 1.
Proof.
  unfold SF64div, SFdiv. rewrite SFdiv_core_self.
  destruct sx; vm_compute; reflexivity.
Qed.

Lemma SF64div_self x : SF64div x x = S754_nan ∨ SF64div x x = Prim2SF 1.
Proof.
  destruct x as [sx|sx| |sx m e]; [left; reflexivity ..|right].
  apply SF64div_finite_self.
Qed.

(** [x / x] is one or NaN: it is above no [c] that one is not above ... *)
Lemma div_self_not_above c x :
  (c <? 1) = false → (c <? x / x) = false.
Proof.
  intros Hc. rewrite ltb_spec, div_spec.
  destruct (SF64div_self (Prim2SF x)) as [-> | ->].
  - unfold SFltb. destruct (Prim2SF c); reflexivity.
  - rewrite <- ltb_spec. exact Hc.
Qed.

(** ... and below no [c] that one is not below. *)
Lemma div_self_not_below c x :
  (1 <? c) = false → (x / x <? c) = false.
Proof.
  intros Hc. rewrite ltb_spec, div_spec.
  destruct (SF64div_self (Prim2SF x)) as [-> | ->].
  - reflexivity.
  - rewrite <- ltb_spec. exact Hc.
Qed.

Lemma SFltb_trans a b c :
  SFltb a b = true → SFltb b c = true → SFltb a c = true.
Proof.
  unfold SFltb.
  destruct a as [[]|[]| |[] ma ea], b as [[]|[]| |[] mb eb],
           c as [[]|[]| |[] mc ec];
    simpl; try congruence;
    rewrite ?Pos.compare_cont_spec; simpl;
    destruct (Z.compare_spec ea eb), (Z.compare_spec eb ec),
             (Z.compare_spec ea ec);
    try congruence; try lia; subst;
    destruct (Pos.compare_spec ma mb), (Pos.compare_spec mb mc),
             (Pos.compare_spec ma mc);
    simpl; try congruence; try lia.
Qed.

Lemma ltb_trans a b c : (a <? b) = true → (b <? c) = true → (a <? c) = true.
Proof. rewrite !ltb_spec. apply SFltb_trans. Qed.

Lemma SFltb_irrefl a : SFltb a a = false.
Proof.
  unfold SFltb. destruct a as [[]|[]| |[] m e]; simpl; try reflexivity;
    rewrite Z.compare_refl, Pos.compare_cont_spec, Pos.compare_refl;
    reflexivity.
Qed.

Lemma ltb_irrefl a : (a <? a) = false.
Proof. rewrite ltb_spec. apply SFltb_irrefl. Qed.

(** If [b] is not above [a] but [c] is, and [b] is a number, then [c]
    is above [b]. *)
Lemma SFltb_trans_not a b c :
  SFltb a b = false → SFltb a c = true → b ≠ S754_nan → SFltb b c = true.
Proof.
  unfold SFltb.
  destruct a as [[]|[]| |[] ma ea], b as [[]|[]| |[] mb eb],
           c as [[]|[]| |[] mc ec];
    simpl; try congruence;
    rewrite ?Pos.compare_cont_spec; simpl;
    destruct (Z.compare_spec ea eb), (Z.compare_spec eb ec),
             (Z.compare_spec ea ec);
    try congruence; try lia; subst;
    destruct (Pos.compare_spec ma mb), (Pos.compare_spec mb mc),
             (Pos.compare_spec ma mc);
    simpl; try congruence; try lia.
Qed.

Lemma ltb_trans_not t a b c :
  (a <? b) = false → (a <? c) = true → (t <? b) = true → (b <? c) = true.
Proof.
  rewrite !ltb_spec. intros Hab Hac Htb.
  apply SFltb_trans_not with (Prim2SF a); [done..|].
  intros Hb. rewrite Hb in Htb. unfold SFltb in Htb.
  destruct (Prim2SF t); discriminate.
Qed.

(** A finite float that is not zero is one divided by itself. *)
Lemma div_finite_self x :
  is_finite x = true → is_zero x = false → x / x = 1.
Proof.
  unfold is_finite, is_zero, is_nan, is_infinity.
  rewrite !FloatAxioms.eqb_spec, abs_spec. intros Hf Hz.
  apply Prim2SF_inj. rewrite div_spec.
  change (Prim2SF infinity) with (S754_infinity false) in Hf.
  change (Prim2SF 0) with (S754_zero false) in Hz.
  destruct (Prim2SF x) as [sx|sx| |sx m e]; try discriminate.
  - destruct sx; discriminate.
  - apply SF64div_finite_self.
Qed.

End Binary64.

(** ** Reading the arrays *)

Lemma ratio_defined (a : list double) (s : nat) :
  s < length a → ∃ r, ratio a s = Some r.
Proof.
  intros Hs. unfold ratio.
  destruct (lookup_lt_is_Some_2 a s Hs) as [cur ->].
  destruct (lookup_lt_is_Some_2 a (s - 1) ltac:(lia)) as [prev ->].
  simpl. eauto.
Qed.

Lemma store_prefix_length {A} (buf curve : list A) :
  length curve ≤ length buf → length (store_prefix buf curve) = length buf.
Proof.
  intros H. unfold store_prefix. rewrite length_app, length_drop. lia.
Qed.

Lemma ratio_flat (v : double) (n : nat) (tail : list double) (s : nat) :
  1 ≤ s < n → ratio (replicate n v ++ tail) s = Some (v / v)%float.
Proof.
  intros Hs. unfold ratio.
  rewrite !lookup_app_l by (rewrite length_replicate; lia).
  rewrite !lookup_replicate_2 by lia. reflexivity.
Qed.

(** ** What the first-match scans return *)

Lemma line_size_scan_result (norm_times : list double) ss detected :
  Forall (λ s, s + 1 < length norm_times ∧ s < length CacheInfo.strides) ss →
  ∃ v, CacheInfo.line_size_scan norm_times ss detected = Some v
       ∧ (v = detected ∨ ∃ s, s ∈ ss ∧ CacheInfo.strides !! s = Some v).
Proof.
  induction 1 as [|s ss [Hs Hst] _ IH]; simpl; [eauto|].
  destruct (ratio_defined norm_times s ltac:(lia)) as [gb ->].
  destruct (ratio_defined norm_times (s + 1) ltac:(lia)) as [ga ->]. simpl.
  destruct (_ && _).
  - destruct (lookup_lt_is_Some_2 _ _ Hst) as [v Hv].
    exists v. split; [done|]. right. exists s. split; [left|done].
  - destruct IH as (v & -> & [->|(s' & ? & ?)]); eexists; split; eauto.
    right. exists s'. split; [by right|done].
Qed.

Lemma cores_line_size_scan_result (norm_times : list double) ss detected :
  Forall (λ s, s + 1 < length norm_times ∧ s < length CacheInfoCores.strides) ss →
  ∃ v, CacheInfoCores.line_size_scan norm_times ss detected = Some v
       ∧ (v = detected ∨ ∃ s, s ∈ ss ∧ CacheInfoCores.strides !! s = Some v).
Proof.
  induction 1 as [|s ss [Hs Hst] _ IH]; simpl; [eauto|].
  destruct (ratio_defined norm_times s ltac:(lia)) as [gb ->].
  destruct (ratio_defined norm_times (s + 1) ltac:(lia)) as [ga ->]. simpl.
  destruct (_ && _).
  - destruct (lookup_lt_is_Some_2 _ _ Hst) as [v Hv].
    exists v. split; [done|]. right. exists s. split; [left|done].
  - destruct IH as (v & -> & [->|(s' & ? & ?)]); eexists; split; eauto.
    right. exists s'. split; [by right|done].
Qed.

Lemma page_size_scan_result (times : list double) ss detected :
  Forall (λ s, s < length times ∧ 1 ≤ s ≤ length TlbInfo.strides) ss →
  ∃ v, TlbInfo.page_size_scan times ss detected = Some v
       ∧ (v = detected ∨ ∃ s, s ∈ ss ∧ TlbInfo.strides !! (s - 1) = Some v).
Proof.
  induction 1 as [|s ss [Hs Hst] _ IH]; simpl; [eauto|].
  destruct (ratio_defined times s ltac:(lia)) as [r ->]. simpl.
  destruct (_ <? _)%float.
  - destruct (lookup_lt_is_Some_2 TlbInfo.strides (s - 1) ltac:(lia)) as [v Hv].
    exists v. split; [done|]. right. exists s. split; [left|done].
  - destruct IH as (v & -> & [->|(s' & ? & ?)]); eexists; split; eauto.
    right. exists s'. split; [by right|done].
Qed.

(** The TLB scan stops at the first ratio above 1.25. *)
Lemma tlb_size_scan_first (times : list double) len : ∀ a detected,
  1 ≤ a → a + len ≤ length times → a + len ≤ S (length TlbInfo.pages_to_test) →
  ∃ v, TlbInfo.tlb_size_scan times (seq a len) detected = Some v
       ∧ ((v = detected ∧ ∀ t, a ≤ t < a + len → jump 1.25 times t = false)
          ∨ ∃ t, a ≤ t < a + len ∧ TlbInfo.pages_to_test !! (t - 1) = Some v
                 ∧ jump 1.25 times t = true
                 ∧ ∀ t', a ≤ t' < t → jump 1.25 times t' = false).
Proof.
  induction len as [|len IH]; intros a detected Ha Hlen Hp; simpl.
  { eexists; split; [done|]. left. split; [done|]. intros; lia. }
  destruct (ratio_defined times a ltac:(lia)) as [r Hr]. rewrite Hr. simpl.
  destruct (1.25 <? r)%float eqn:Hjump.
  - destruct (lookup_lt_is_Some_2 TlbInfo.pages_to_test (a - 1) ltac:(lia))
      as [v Hv].
    exists v. split; [done|]. right. exists a.
    repeat split; [lia..|done| |intros; lia].
    unfold jump. by rewrite Hr.
  - destruct (IH (S a) detected) as (v & -> & Hv); [lia..|].
    assert (Ha0 : jump 1.25 times a = false) by (unfold jump; by rewrite Hr).
    exists v. split; [done|]. destruct Hv as [[-> Hn]|(t & Ht & Hv & Hj & Hn)].
    + left. split; [done|]. intros t Ht.
      destruct (decide (t = a)) as [->|]; [done|apply Hn; lia].
    + right. exists t. repeat split; [lia..|done|done|].
      intros t' Ht'. destruct (decide (t' = a)) as [->|]; [done|apply Hn; lia].
Qed.

Lemma associativity_scan_result (times : list double) ts : ∀ detected max_ratio,
  Forall (λ t, t < length times ∧ 1 ≤ t ≤ length CacheInfo.ways_to_test) ts →
  ∃ v, CacheInfo.associativity_scan times ts detected max_ratio = Some v
       ∧ (v = detected ∨ ∃ t, t ∈ ts ∧ CacheInfo.ways_to_test !! (t - 1) = Some v).
Proof.
  induction ts as [|t ts IH]; intros detected max_ratio Hts; simpl; [eauto|].
  apply Forall_cons in Hts as [[Ht Hw] Hts].
  destruct (ratio_defined times t ltac:(lia)) as [r ->]. simpl.
  destruct (_ && _).
  - destruct (lookup_lt_is_Some_2 CacheInfo.ways_to_test (t - 1) ltac:(lia))
      as [w Hw']. rewrite Hw'. simpl.
    destruct (IH w r Hts) as (v & -> & [->|(t' & ? & ?)]); eexists; split; eauto.
    + right. exists t. split; [left|done].
    + right. exists t'. split; [by right|done].
  - destruct (IH detected max_ratio Hts) as (v & -> & [->|(t' & ? & ?)]);
      eexists; split; eauto.
    right. exists t'. split; [by right|done].
Qed.

(** ** Line size: the synthetic curves *)

(** C2, as stated, fails: on the synthetic curve the detector does not
    report 128. *)
Lemma C2_synthetic_curve_not_128 :
  CacheInfo.detect_line_size synthetic_curve ≠ Some 128%Z.
Proof. intros H. vm_compute in H. discriminate H. Qed.

(** C2, amended: on the synthetic normalized-time curve over the strides
    8 .. 1024 the detector reports 64, the stride of the first index
    whose ratio to its predecessor is above 1.3 while the next ratio is
    below 1.3 (index 3: 1.4/1.05 and 1.42/1.4), whatever the array holds
    after the eight entries. *)
Theorem C2_synthetic_curve_reports_64 (tail : list double) :
  CacheInfo.detect_line_size (synthetic_curve ++ tail) = Some 64%Z.
Proof. vm_compute. reflexivity. Qed.

(** C3, as stated, fails: the curve [1,1,1,1,3,3,3,3] steps at index 4
    and the detector does not report the stride of index 3. *)
Lemma C3_step_not_reported_before_step :
  CacheInfo.detect_line_size (step_curve 4 1 3 [3; 3]%float)
  ≠ CacheInfo.strides !! (4 - 1).
Proof. intros H. vm_compute in H. discriminate H. Qed.

Lemma step_ratio_not_above hi lo :
  is_zero hi = true → (1.3 <? hi / lo)%float = false.
Proof.
  unfold is_zero. rewrite FloatAxioms.eqb_spec, ltb_spec, div_spec.
  change (Prim2SF 0) with (S754_zero false).
  intros Hz.
  destruct (Prim2SF hi) as [sx|[]| |[] m e]; try discriminate Hz.
  destruct (Prim2SF lo) as [sy|sy| |sy m e]; destruct sx; reflexivity.
Qed.

(** C3, amended: a curve that is constant up to index [k] and constant
    at a finite higher value from index [k] on, the step being a ratio
    above 1.3, is reported at the sweep configuration of index [k]
    itself (for 2 <= k <= 6, the indices the scan visits), whatever
    follows index [k + 1]. *)
Theorem C3_step_reported_at_step_index (k : nat) (lo hi : double)
    (after : list double) :
  2 ≤ k < CacheInfo.num_strides - 1 →
  (1.3 <? hi / lo)%float = true →
  is_finite hi = true →
  CacheInfo.detect_line_size (step_curve k lo hi after) = CacheInfo.strides !! k.
Proof.
  intros Hk Hstep Hfin.
  assert (Hnz : is_zero hi = false).
  { destruct (is_zero hi) eqn:Hz; [|done].
    rewrite (step_ratio_not_above hi lo Hz) in Hstep. discriminate. }
  pose proof (div_finite_self hi Hfin Hnz) as Hone.
  pose proof (div_self_not_above 1.3 lo eq_refl) as Hlo.
  change CacheInfo.num_strides with 8 in Hk.
  destruct k as [|[|[|[|[|[|[|k]]]]]]]; try lia;
    unfold CacheInfo.detect_line_size, step_curve, ratio; simpl;
    rewrite ?Hlo, ?Hstep, ?Hone; reflexivity.
Qed.

Lemma C3_step_reported_at_step_index_witness :
  CacheInfo.detect_line_size (step_curve 4 1 3 [3; 3]%float) = Some 128%Z.
Proof.
  apply (C3_step_reported_at_step_index 4 1 3 [3; 3]%float);
    [vm_compute; lia|reflexivity|reflexivity].
Defined.

(** ** Flat curves *)

(** C7: on a flat curve (every measured value equal to [v], whatever
    [v] is) each detector returns its built-in default: 64 bytes for the
    line size (both programs), 8 ways, 4096 bytes for the page size and
    64 TLB entries; the cache-size tiers stay 0. *)
Theorem C7_flat_curve_defaults (v : double) (tail : list double) :
  CacheInfo.detect_line_size (replicate CacheInfo.num_strides v ++ tail) = Some 64%Z
  ∧ CacheInfoCores.detect_line_size (replicate 6 v ++ tail) = Some 64%Z
  ∧ CacheInfo.detect_associativity (replicate CacheInfo.num_tests v ++ tail) = Some 8%Z
  ∧ TlbInfo.detect_page_size (replicate TlbInfo.num_strides v ++ tail) = Some 4096%Z
  ∧ TlbInfo.detect_tlb_size (replicate TlbInfo.num_tests v ++ tail) = Some 64%Z
  ∧ CacheInfo.detect_cache_sizes (replicate CacheInfo.num_sizes v ++ tail)
    = Some (0, 0, 0)%Z.
Proof.
  pose proof (div_self_not_above 1.3 v eq_refl) as H13.
  pose proof (div_self_not_above 1.25 v eq_refl) as H125.
  pose proof (div_self_not_above 1.5 v eq_refl) as H15.
  pose proof (div_self_not_above 1 v eq_refl) as H1.
  pose proof (div_self_not_below 0.6 v eq_refl) as H06.
  repeat split.
  - unfold CacheInfo.detect_line_size, ratio; simpl. by rewrite !H13.
  - unfold CacheInfoCores.detect_line_size, ratio; simpl. by rewrite !H13.
  - unfold CacheInfo.detect_associativity, ratio; simpl. by rewrite !H1.
  - unfold TlbInfo.detect_page_size, ratio; simpl. by rewrite !H06.
  - unfold TlbInfo.detect_tlb_size, ratio; simpl. by rewrite !H125.
  - unfold CacheInfo.detect_cache_sizes, CacheInfo.cache_sizes_step, ratio;
      simpl. repeat (rewrite ?H13, ?H15; simpl). reflexivity.
Qed.

(** ** Totality and range of the detectors *)

(** C10: whatever the curve, the line-size scan visits the sweep indices
    2 .. 6 only (2 .. 4 in the core-class program), so the line size it
    returns is one of 32, 64, 128, 256, 512 (one of 32, 64, 128 in the
    core-class program); 8, 16 and 1024 are never returned. *)
Theorem C10_line_size_never_an_endpoint (a b : list double)
    (Ha : CacheInfo.num_strides ≤ length a) (Hb : 6 ≤ length b) :
  (∃ v, CacheInfo.detect_line_size a = Some v
        ∧ v ∈ [32; 64; 128; 256; 512]%Z ∧ v ∉ [8; 16; 1024]%Z)
  ∧ (∃ v, CacheInfoCores.detect_line_size b = Some v ∧ v ∈ [32; 64; 128]%Z).
Proof.
  change CacheInfo.num_strides with 8 in Ha. split.
  - destruct (line_size_scan_result a (range 2 (CacheInfo.num_strides - 1)) 64)
      as (v & Hv & Hin).
    { repeat constructor; simpl; lia. }
    exists v. split; [exact Hv|].
    destruct Hin as [->|(s & Hs & Hst)].
    + split; [elem_here|]. not_elem.
    + vm_compute in Hs. elem_cases Hs; injection Hst as <-;
        (split; [elem_here|not_elem]).
  - destruct (cores_line_size_scan_result b (range 2 5) 64) as (v & Hv & Hin).
    { repeat constructor; simpl; lia. }
    exists v. split; [exact Hv|].
    destruct Hin as [->|(s & Hs & Hst)]; [elem_here|].
    vm_compute in Hs. elem_cases Hs; injection Hst as <-; elem_here.
Qed.

Lemma C10_line_size_never_an_endpoint_witness :
  (∃ v, CacheInfo.detect_line_size synthetic_curve = Some v
        ∧ v ∈ [32; 64; 128; 256; 512]%Z ∧ v ∉ [8; 16; 1024]%Z)
  ∧ (∃ v, CacheInfoCores.detect_line_size (take 6 synthetic_curve) = Some v
          ∧ v ∈ [32; 64; 128]%Z).
Proof.
  apply (C10_line_size_never_an_endpoint synthetic_curve (take 6 synthetic_curve));
    vm_compute; lia.
Defined.

(** C9: let each detector's array hold anything at all ([buf], of the
    declared size) with a curve of at most the sweep length written over
    its first entries.  Then the detector returns a value, every index
    it reads lies inside the array and the candidate list, and the
    value is a candidate of its sweep or its default.  No sign
    condition on the values is needed. *)
Theorem C9_detectors_total (b1 c1 b2 c2 b3 c3 b4 c4 b5 c5 : list double)
    (Hb1 : length b1 = 10) (Hc1 : length c1 ≤ CacheInfo.num_strides)
    (Hb2 : length b2 = 16) (Hc2 : length c2 ≤ CacheInfo.num_tests)
    (Hb3 : length b3 = 12) (Hc3 : length c3 ≤ TlbInfo.num_tests)
    (Hb4 : length b4 = 8) (Hc4 : length c4 ≤ TlbInfo.num_strides)
    (Hb5 : length b5 = 6) (Hc5 : length c5 ≤ 6) :
  (∃ v, CacheInfo.detect_line_size (store_prefix b1 c1) = Some v
        ∧ (v ∈ CacheInfo.strides ∨ v = 64%Z))
  ∧ (∃ v, CacheInfo.detect_associativity (store_prefix b2 c2) = Some v
          ∧ (v ∈ CacheInfo.ways_to_test ∨ v = 8%Z))
  ∧ (∃ v, TlbInfo.detect_tlb_size (store_prefix b3 c3) = Some v
          ∧ (v ∈ TlbInfo.pages_to_test ∨ v = 64%Z))
  ∧ (∃ v, TlbInfo.detect_page_size (store_prefix b4 c4) = Some v
          ∧ (v ∈ TlbInfo.strides ∨ v = 4096%Z))
  ∧ (∃ v, CacheInfoCores.detect_line_size (store_prefix b5 c5) = Some v
          ∧ (v ∈ CacheInfoCores.strides ∨ v = 64%Z)).
Proof.
  change CacheInfo.num_strides with 8 in Hc1.
  change CacheInfo.num_tests with 11 in Hc2.
  change TlbInfo.num_tests with 10 in Hc3.
  change TlbInfo.num_strides with 6 in Hc4.
  pose proof (store_prefix_length b1 c1 ltac:(lia)) as L1.
  pose proof (store_prefix_length b2 c2 ltac:(lia)) as L2.
  pose proof (store_prefix_length b3 c3 ltac:(lia)) as L3.
  pose proof (store_prefix_length b4 c4 ltac:(lia)) as L4.
  pose proof (store_prefix_length b5 c5 ltac:(lia)) as L5.
  repeat split.
  - destruct (line_size_scan_result (store_prefix b1 c1)
                (range 2 (CacheInfo.num_strides - 1)) 64) as (v & Hv & Hin).
    { repeat constructor; simpl; lia. }
    exists v. split; [exact Hv|].
    destruct Hin as [->|(s & _ & Hst)]; [by right|left].
    by eapply list_elem_of_lookup_2.
  - destruct (associativity_scan_result (store_prefix b2 c2)
                (range 1 CacheInfo.num_tests) 8 1.0%float) as (v & Hv & Hin).
    { repeat constructor; simpl; lia. }
    exists v. split; [exact Hv|].
    destruct Hin as [->|(s & _ & Hst)]; [by right|left].
    by eapply list_elem_of_lookup_2.
  - destruct (tlb_size_scan_first (store_prefix b3 c3) 9 1 64)
      as (v & Hv & Hin); [simpl; lia..|].
    exists v. split; [exact Hv|].
    destruct Hin as [[-> _]|(s & _ & Hst & _)]; [by right|left].
    by eapply list_elem_of_lookup_2.
  - destruct (page_size_scan_result (store_prefix b4 c4)
                (range 2 TlbInfo.num_strides) 4096) as (v & Hv & Hin).
    { repeat constructor; simpl; lia. }
    exists v. split; [exact Hv|].
    destruct Hin as [->|(s & _ & Hst)]; [by right|left].
    by eapply list_elem_of_lookup_2.
  - destruct (cores_line_size_scan_result (store_prefix b5 c5) (range 2 5) 64)
      as (v & Hv & Hin).
    { repeat constructor; simpl; lia. }
    exists v. split; [exact Hv|].
    destruct Hin as [->|(s & _ & Hst)]; [by right|left].
    by eapply list_elem_of_lookup_2.
Qed.

Lemma C9_detectors_total_witness :
  (∃ v, CacheInfo.detect_line_size
          (store_prefix (replicate 10 0%float) synthetic_curve) = Some v
        ∧ (v ∈ CacheInfo.strides ∨ v = 64%Z))
  ∧ (∃ v, CacheInfo.detect_associativity
            (store_prefix (replicate 16 0%float) [1; 1; 2]%float) = Some v
          ∧ (v ∈ CacheInfo.ways_to_test ∨ v = 8%Z))
  ∧ (∃ v, TlbInfo.detect_tlb_size (store_prefix (replicate 12 0%float) []) = Some v
          ∧ (v ∈ TlbInfo.pages_to_test ∨ v = 64%Z))
  ∧ (∃ v, TlbInfo.detect_page_size
            (store_prefix (replicate 8 0%float) [4; 4; 4; 1]%float) = Some v
          ∧ (v ∈ TlbInfo.strides ∨ v = 4096%Z))
  ∧ (∃ v, CacheInfoCores.detect_line_size
            (store_prefix (replicate 6 0%float) (take 6 synthetic_curve)) = Some v
          ∧ (v ∈ CacheInfoCores.strides ∨ v = 64%Z)).
Proof.
  apply (C9_detectors_total
           (replicate 10 0%float) synthetic_curve
           (replicate 16 0%float) [1; 1; 2]%float
           (replicate 12 0%float) []
           (replicate 8 0%float) [4; 4; 4; 1]%float
           (replicate 6 0%float) (take 6 synthetic_curve));
    vm_compute; lia.
Defined.

(** ** Largest ratio against first ratio *)

(** C6, as stated, fails for the TLB: on a curve whose single largest
    ratio is at index 5 the TLB detector does not report the page count
    of index 4. *)
Lemma C6_tlb_not_global_max :
  single_largest_jump 1.25 tlb_curve TlbInfo.num_tests 5
  ∧ TlbInfo.detect_tlb_size tlb_curve ≠ TlbInfo.pages_to_test !! (5 - 1).
Proof.
  split.
  - split; [vm_compute; lia|]. split; [reflexivity|].
    intros t' Ht' Hne. change TlbInfo.num_tests with 10 in Ht'.
    do 10 (destruct t' as [|t']; [first [lia|reflexivity]|]). lia.
  - intros H. vm_compute in H. discriminate H.
Qed.

Lemma not_ltb_by_trans (a b c : double) :
  (a <? b)%float = true → (a <? c)%float = false → (b <? c)%float = false.
Proof.
  intros Hab Hac. destruct (b <? c)%float eqn:Hbc; [|done].
  by rewrite (ltb_trans a b c Hab Hbc) in Hac.
Qed.

Lemma associativity_scan_inv (times : list double) len : ∀ a w max_ratio,
  1 ≤ a → a + len ≤ length times →
  a + len ≤ S (length CacheInfo.ways_to_test) →
  assoc_inv times a w max_ratio →
  ∃ w' max', CacheInfo.associativity_scan times (seq a len) w max_ratio = Some w'
             ∧ assoc_inv times (a + len) w' max'.
Proof.
  induction len as [|len IH]; intros a w mx Ha Hlen Hw Hinv; simpl.
  { exists w, mx. split; [done|]. by replace (a + 0) with a by lia. }
  destruct (ratio_defined times a ltac:(lia)) as [r Hr]. rewrite Hr. simpl.
  replace (a + S len) with (S a + len) by lia.
  destruct (mx <? r)%float eqn:E1, (1.3 <? r)%float eqn:E2; simpl.
  - destruct (lookup_lt_is_Some_2 CacheInfo.ways_to_test (a - 1) ltac:(lia))
      as [w' Hw']. rewrite Hw'. simpl.
    apply IH; [lia..|]. right. exists a.
    split; [lia|]. do 3 (split; [done|]). split.
    + intros t' r' Ht' Hr'. destruct (decide (t' = a)) as [->|Hne].
      { rewrite Hr in Hr'. injection Hr' as <-. apply ltb_irrefl. }
      destruct Hinv as [(_ & _ & Hno)|(t & _ & _ & _ & _ & Hmax & _)].
      * apply (not_ltb_by_trans 1.3); [done|]. apply (Hno t'); [lia|done].
      * apply (not_ltb_by_trans mx); [done|]. apply (Hmax t'); [lia|done].
    + intros t' r' Ht' Hr' Hj.
      destruct Hinv as [(_ & _ & Hno)|(t & _ & _ & _ & _ & Hmax & _)].
      * rewrite (Hno t' r') in Hj; [done|lia|done].
      * apply (ltb_trans_not 1.3 mx); [|done..]. apply (Hmax t'); [lia|done].
  - apply IH; [lia..|].
    destruct Hinv as [(-> & -> & Hno)|(t & Ht & Hw0 & Hrt & Hj & Hmax & Hfirst)].
    + left. do 2 (split; [done|]). intros t' r' Ht' Hr'.
      destruct (decide (t' = a)) as [->|Hne]; [|apply (Hno t'); [lia|done]].
      rewrite Hr in Hr'. by injection Hr' as <-.
    + right. exists t. split; [lia|]. do 3 (split; [done|]). split; [|done].
      intros t' r' Ht' Hr'.
      destruct (decide (t' = a)) as [->|Hne]; [|apply (Hmax t'); [lia|done]].
      rewrite Hr in Hr'. injection Hr' as <-.
      by rewrite (ltb_trans 1.3 mx r Hj E1) in E2.
  - apply IH; [lia..|].
    destruct Hinv as [(-> & -> & Hno)|(t & Ht & Hw0 & Hrt & Hj & Hmax & Hfirst)].
    + by rewrite (ltb_trans 1.0 1.3 r eq_refl E2) in E1.
    + right. exists t. split; [lia|]. do 3 (split; [done|]). split; [|done].
      intros t' r' Ht' Hr'.
      destruct (decide (t' = a)) as [->|Hne]; [|apply (Hmax t'); [lia|done]].
      rewrite Hr in Hr'. by injection Hr' as <-.
  - apply IH; [lia..|].
    destruct Hinv as [(-> & -> & Hno)|(t & Ht & Hw0 & Hrt & Hj & Hmax & Hfirst)].
    + left. do 2 (split; [done|]). intros t' r' Ht' Hr'.
      destruct (decide (t' = a)) as [->|Hne]; [|apply (Hno t'); [lia|done]].
      rewrite Hr in Hr'. by injection Hr' as <-.
    + right. exists t. split; [lia|]. do 3 (split; [done|]). split; [|done].
      intros t' r' Ht' Hr'.
      destruct (decide (t' = a)) as [->|Hne]; [|apply (Hmax t'); [lia|done]].
      rewrite Hr in Hr'. by injection Hr' as <-.
Qed.

(** C6, amended: the associativity detector follows the largest ratio,
    the TLB detector the first one.  With 11 way counts, the
    associativity scan returns 8 when no ratio is above 1.3; otherwise
    it returns the way count before a position [t] whose ratio is above
    1.3, below no other ratio, and strictly above every ratio over 1.3
    that comes before it.  With 10 page counts, the TLB scan returns 64
    when no ratio is above 1.25; otherwise it returns the page count
    before the first position whose ratio is above 1.25. *)
Theorem C6_assoc_largest_tlb_first (a b : list double)
    (Ha : CacheInfo.num_tests ≤ length a) (Hb : TlbInfo.num_tests ≤ length b) :
  (∃ w, CacheInfo.detect_associativity a = Some w
        ∧ ((w = 8%Z ∧ ∀ t, 1 ≤ t < CacheInfo.num_tests → jump 1.3 a t = false)
           ∨ ∃ t, 1 ≤ t < CacheInfo.num_tests
                  ∧ CacheInfo.ways_to_test !! (t - 1) = Some w
                  ∧ jump 1.3 a t = true
                  ∧ (∀ t', 1 ≤ t' < CacheInfo.num_tests → ratio_lt a t t' = false)
                  ∧ (∀ t', 1 ≤ t' < t → jump 1.3 a t' = true →
                           ratio_lt a t' t = true)))
  ∧ (∃ v, TlbInfo.detect_tlb_size b = Some v
          ∧ ((v = 64%Z ∧ ∀ t, 1 ≤ t < TlbInfo.num_tests → jump 1.25 b t = false)
             ∨ ∃ t, 1 ≤ t < TlbInfo.num_tests
                    ∧ TlbInfo.pages_to_test !! (t - 1) = Some v
                    ∧ jump 1.25 b t = true
                    ∧ ∀ t', 1 ≤ t' < t → jump 1.25 b t' = false)).
Proof.
  change CacheInfo.num_tests with 11 in *. change TlbInfo.num_tests with 10 in *.
  split.
  - destruct (associativity_scan_inv a 10 1 8 1.0%float) as (w & mx & Hw & Hinv);
      [simpl; lia..| |].
    { left. do 2 (split; [done|]). intros; lia. }
    exists w. split; [exact Hw|].
    destruct Hinv as [(-> & _ & Hno)|(t & Ht & Hw0 & Hrt & Hj & Hmax & Hfirst)].
    + left. split; [done|]. intros t Ht. unfold jump.
      destruct (ratio a t) as [r|] eqn:Hr; [|done]. by apply (Hno t).
    + right. exists t. split; [exact Ht|]. split; [done|].
      unfold jump, ratio_lt. rewrite Hrt. split; [done|]. split.
      * intros t' Ht'. destruct (ratio a t') as [r'|] eqn:Hr'; [|done].
        by apply (Hmax t').
      * intros t' Ht'. destruct (ratio a t') as [r'|] eqn:Hr'; [|done].
        intros Hj'. by apply (Hfirst t').
  - destruct (tlb_size_scan_first b 9 1 64) as (v & Hv & Hin); [simpl; lia..|].
    exists v. split; [exact Hv|]. exact Hin.
Qed.

Lemma C6_assoc_largest_tlb_first_witness :
  (∃ w, CacheInfo.detect_associativity (tlb_curve ++ [6%float]) = Some w
        ∧ ((w = 8%Z ∧ ∀ t, 1 ≤ t < CacheInfo.num_tests →
                           jump 1.3 (tlb_curve ++ [6%float]) t = false)
           ∨ ∃ t, 1 ≤ t < CacheInfo.num_tests
                  ∧ CacheInfo.ways_to_test !! (t - 1) = Some w
                  ∧ jump 1.3 (tlb_curve ++ [6%float]) t = true
                  ∧ (∀ t', 1 ≤ t' < CacheInfo.num_tests →
                           ratio_lt (tlb_curve ++ [6%float]) t t' = false)
                  ∧ (∀ t', 1 ≤ t' < t →
                           jump 1.3 (tlb_curve ++ [6%float]) t' = true →
                           ratio_lt (tlb_curve ++ [6%float]) t' t = true)))
  ∧ (∃ v, TlbInfo.detect_tlb_size tlb_curve = Some v
          ∧ ((v = 64%Z ∧ ∀ t, 1 ≤ t < TlbInfo.num_tests →
                              jump 1.25 tlb_curve t = false)
             ∨ ∃ t, 1 ≤ t < TlbInfo.num_tests
                    ∧ TlbInfo.pages_to_test !! (t - 1) = Some v
                    ∧ jump 1.25 tlb_curve t = true
                    ∧ ∀ t', 1 ≤ t' < t → jump 1.25 tlb_curve t' = false)).
Proof.
  apply (C6_assoc_largest_tlb_first (tlb_curve ++ [6%float]) tlb_curve);
    vm_compute; lia.
Defined.

Example assoc_follows_largest :
  CacheInfo.detect_associativity (tlb_curve ++ [6%float]) = Some 10%Z
  ∧ TlbInfo.detect_tlb_size tlb_curve = Some 8%Z.
Proof. split; vm_compute; reflexivity. Qed.

(** ** The vote over ten TLB results *)

Lemma occurrences_cons (x v : Z) (l : list Z) :
  occurrences (x :: l) v
  = ((if decide (x = v) then 1 else 0) + occurrences l v)%Z.
Proof.
  unfold occurrences. rewrite filter_cons.
  destruct (decide (x = v)); simpl length; lia.
Qed.

Lemma occurrences_pos (results : list Z) (i : nat) (v : Z) :
  results !! i = Some v → (1 ≤ occurrences results v)%Z.
Proof.
  revert i. induction results as [|x l IH]; intros [|i] Hi; try discriminate Hi;
    rewrite occurrences_cons.
  - injection Hi as ->. rewrite decide_True by done.
    unfold occurrences. lia.
  - specialize (IH i Hi). destruct (decide (x = v)); lia.
Qed.

(** The inner loop counts the occurrences of [ri]. *)
Lemma count_equal_spec (results : list Z) (ri : Z) len : ∀ a count,
  a + len ≤ length results →
  TlbInfo.count_equal results (seq a len) ri count
  = Some (count + occurrences (take len (drop a results)) ri)%Z.
Proof.
  induction len as [|len IH]; intros a count Hlen; simpl.
  { unfold occurrences. simpl. f_equal. lia. }
  destruct (lookup_lt_is_Some_2 results a ltac:(lia)) as [rj Hrj].
  rewrite Hrj. simpl. rewrite IH by lia.
  rewrite (drop_S results rj a Hrj). simpl take. rewrite occurrences_cons.
  f_equal. destruct (decide (rj = ri)); lia.
Qed.

Lemma count_equal_all (results : list Z) (ri : Z) :
  length results = 10 →
  TlbInfo.count_equal results (range 0 10) ri 0 = Some (occurrences results ri).
Proof.
  intros Hlen. unfold range. rewrite count_equal_spec by (simpl; lia).
  rewrite drop_0, take_ge by lia. reflexivity.
Qed.

Lemma vote_scan_cons (results : list Z) i ix tlb_size max_count :
  TlbInfo.vote_scan results (i :: ix) tlb_size max_count
  = (ri ← results !! i;
     count ← TlbInfo.count_equal results (range 0 10) ri 0;
     if (max_count <? count)%Z
     then TlbInfo.vote_scan results ix ri count
     else TlbInfo.vote_scan results ix tlb_size max_count).
Proof. reflexivity. Qed.

Lemma vote_scan_inv (results : list Z) len : ∀ a tlb_size max_count,
  length results = 10 → a + len ≤ 10 →
  vote_inv results a tlb_size max_count →
  ∃ r m, TlbInfo.vote_scan results (seq a len) tlb_size max_count = Some r
         ∧ vote_inv results (a + len) r m.
Proof.
  induction len as [|len IH]; intros a tlb mx Hlen Ha Hinv.
  { exists tlb, mx. split; [done|]. by replace (a + 0) with a by lia. }
  destruct (lookup_lt_is_Some_2 results a ltac:(lia)) as [ri Hri].
  change (seq a (S len)) with (a :: seq (S a) len).
  rewrite vote_scan_cons, Hri. cbn [mbind option_bind].
  rewrite (count_equal_all results ri Hlen). cbn [mbind option_bind].
  replace (a + S len) with (S a + len) by lia.
  destruct Hinv as (i0 & Hi0 & Hle & Hmx & Heq & Hall & Hfirst).
  pose proof (occurrences_pos results a ri Hri) as Hpos.
  destruct (Z.ltb_spec mx (occurrences results ri)) as [Hlt|Hge].
  - apply IH; [done|lia|]. exists a.
    repeat split; try done; try lia.
    + intros j v Hj Hv. destruct (decide (j = a)) as [->|Hne].
      * rewrite Hri in Hv. injection Hv as <-. lia.
      * specialize (Hall j v ltac:(lia) Hv). lia.
    + intros j v Hj Hv. specialize (Hall j v ltac:(lia) Hv). lia.
  - apply IH; [done|lia|]. exists i0.
    repeat split; try done; try lia.
    + intros _. destruct (decide (a = 0)) as [->|Hne]; [|apply Heq; lia].
      assert (i0 = 0) as -> by lia.
      rewrite Hri in Hi0. injection Hi0 as ->. lia.
    + intros j v Hj Hv. destruct (decide (j = a)) as [->|Hne].
      * rewrite Hri in Hv. injection Hv as <-. lia.
      * apply (Hall j v); [lia|done].
Qed.

(** What the vote returns: a value no other value beats, found at an
    index before which every value is strictly less frequent. *)
Lemma most_frequent_spec (results : list Z) :
  length results = 10 →
  ∃ r i0, TlbInfo.most_frequent results = Some r
          ∧ results !! i0 = Some r
          ∧ (∀ j v, results !! j = Some v →
                    (occurrences results v ≤ occurrences results r)%Z)
          ∧ (∀ j v, j < i0 → results !! j = Some v →
                    (occurrences results v < occurrences results r)%Z).
Proof.
  intros Hlen. unfold TlbInfo.most_frequent.
  destruct (lookup_lt_is_Some_2 results 0 ltac:(lia)) as [r0 Hr0].
  rewrite Hr0. cbn [mbind option_bind].
  destruct (vote_scan_inv results 10 0 r0 1 Hlen ltac:(lia)) as (r & m & Hr & Hinv).
  { exists 0. pose proof (occurrences_pos results 0 r0 Hr0).
    repeat split; try done; try lia; intros; lia. }
  destruct Hinv as (i0 & Hi0 & _ & _ & Heq & Hall & Hfirst).
  specialize (Heq ltac:(lia)). subst m.
  exists r, i0. repeat split; [done|done| |done].
  intros j v Hv. apply (Hall j v); [|done].
  apply lookup_lt_Some in Hv. simpl. lia.
Qed.

Lemma sample_page_size_total (total_time : nat → Z) :
  ∃ curve, mapM (TlbInfo.sample_page_size total_time) (range 0 TlbInfo.num_strides)
           = Some curve ∧ length curve = 6.
Proof. eexists. split; reflexivity. Qed.

Lemma sample_tlb_size_total (total_time : nat → Z) :
  ∃ curve, TlbInfo.sample_tlb_size total_time (range 0 TlbInfo.num_tests)
           = Some curve ∧ length curve = 10.
Proof. eexists. split; reflexivity. Qed.

Lemma probe_page_size_total malloc_ok (total_time : nat → Z) (stack : list double) :
  length stack = 8 →
  ∃ v, TlbInfo.probe_page_size malloc_ok total_time stack = Some v.
Proof.
  intros Hst. unfold TlbInfo.probe_page_size. destruct malloc_ok; simpl negb;
    cbv iota; [|eauto].
  destruct (sample_page_size_total total_time) as (curve & -> & Hlen).
  cbn [mbind option_bind].
  destruct (page_size_scan_result (store_prefix stack curve)
              (range 2 TlbInfo.num_strides) 4096) as (v & Hv & _); [|eauto].
  rewrite store_prefix_length by lia. repeat constructor; simpl; lia.
Qed.

Lemma probe_tlb_size_total page_size malloc_ok (total_time : nat → Z)
    (stack : list double) :
  length stack = 12 →
  ∃ v, TlbInfo.probe_tlb_size page_size malloc_ok total_time stack = Some v.
Proof.
  intros Hst. unfold TlbInfo.probe_tlb_size. destruct malloc_ok; simpl negb;
    cbv iota; [|eauto].
  destruct (sample_tlb_size_total total_time) as (curve & -> & Hlen).
  cbn [mbind option_bind].
  destruct (tlb_size_scan_first (store_prefix stack curve) 9 1 64)
    as (v & Hv & _); [rewrite ?store_prefix_length by lia; simpl; lia..|eauto].
Qed.

(** C5: [main] runs the TLB probe ten times and prints the most frequent
    of the ten results: no result occurs more often than the one
    printed, and a result that occurs as often is first met no earlier
    in the ten runs.  For the results
    [64,64,128,64,64,64,32,64,64,128] the vote gives 64. *)
Theorem C5_majority_vote (page_env : TlbInfo.probe_env)
    (tlb_env : nat → TlbInfo.probe_env)
    (Hpage : length (TlbInfo.stack page_env) = 8)
    (Hruns : ∀ i, length (TlbInfo.stack (tlb_env i)) = 12) :
  TlbInfo.most_frequent ten_results = Some 64%Z
  ∧ ∃ page_size results r i0,
      TlbInfo.probe_page_size (TlbInfo.malloc_ok page_env)
        (TlbInfo.total_time page_env) (TlbInfo.stack page_env) = Some page_size
      ∧ mapM (λ i, TlbInfo.probe_tlb_size page_size (TlbInfo.malloc_ok (tlb_env i))
                     (TlbInfo.total_time (tlb_env i)) (TlbInfo.stack (tlb_env i)))
          (range 0 10) = Some results
      ∧ TlbInfo.main page_env tlb_env = Some (page_size, r)
      ∧ results !! i0 = Some r
      ∧ (∀ v, v ∈ results →
              (occurrences results v ≤ occurrences results r)%Z)
      ∧ (∀ j v, results !! j = Some v →
                occurrences results v = occurrences results r → i0 ≤ j).
Proof.
  split; [reflexivity|].
  destruct (probe_page_size_total (TlbInfo.malloc_ok page_env)
              (TlbInfo.total_time page_env) _ Hpage) as [page_size Hp].
  destruct (mapM_is_Some_2
              (λ i, TlbInfo.probe_tlb_size page_size (TlbInfo.malloc_ok (tlb_env i))
                      (TlbInfo.total_time (tlb_env i)) (TlbInfo.stack (tlb_env i)))
              (range 0 10)) as [results Hres].
  { apply Forall_forall. intros i _. apply probe_tlb_size_total, Hruns. }
  assert (Hlen : length results = 10).
  { apply mapM_Some_1, Forall2_length in Hres. by rewrite <- Hres. }
  destruct (most_frequent_spec results Hlen) as (r & i0 & Hr & Hi0 & Hall & Hfirst).
  exists page_size, results, r, i0. do 2 (split; [done|]).
  unfold TlbInfo.main. rewrite Hp. cbn [mbind option_bind].
  rewrite Hres. cbn [mbind option_bind]. rewrite Hr. cbn [mbind option_bind].
  repeat split; [done| |].
  - intros v [j Hv]%list_elem_of_lookup_1. by apply (Hall j).
  - intros j v Hv Heq. destruct (decide (i0 ≤ j)) as [|Hlt]; [done|].
    specialize (Hfirst j v ltac:(lia) Hv). lia.
Qed.

Lemma C5_majority_vote_witness :
  TlbInfo.most_frequent ten_results = Some 64%Z
  ∧ ∃ page_size results r i0,
      TlbInfo.probe_page_size (TlbInfo.malloc_ok (steady_page_run))
        (TlbInfo.total_time (steady_page_run)) (TlbInfo.stack (steady_page_run))
      = Some page_size
      ∧ mapM (λ i, TlbInfo.probe_tlb_size page_size (TlbInfo.malloc_ok (ten_runs i))
                     (TlbInfo.total_time (ten_runs i)) (TlbInfo.stack (ten_runs i)))
          (range 0 10) = Some results
      ∧ TlbInfo.main (steady_page_run) ten_runs = Some (page_size, r)
      ∧ results !! i0 = Some r
      ∧ (∀ v, v ∈ results →
              (occurrences results v ≤ occurrences results r)%Z)
      ∧ (∀ j v, results !! j = Some v →
                occurrences results v = occurrences results r → i0 ≤ j).
Proof.
  apply (C5_majority_vote (steady_page_run) ten_runs).
  - reflexivity.
  - intros i. unfold ten_runs, doubling_at. reflexivity.
Defined.

Example ten_runs_vote :
  mapM (λ i, TlbInfo.probe_tlb_size 4096 (TlbInfo.malloc_ok (ten_runs i))
               (TlbInfo.total_time (ten_runs i)) (TlbInfo.stack (ten_runs i)))
    (range 0 10) = Some ten_results
  ∧ TlbInfo.main (steady_page_run) ten_runs = Some (4096, 64)%Z.
Proof. split; vm_compute; reflexivity. Qed.

(** ** The cache-size tiers *)

Lemma sizes_positive i (x : Z) : CacheInfo.sizes !! i = Some x → (0 < x)%Z.
Proof.
  assert (H : Forall (λ z, 0 < z)%Z CacheInfo.sizes)
    by (repeat constructor; lia).
  intros Hi. by apply (Forall_lookup_1 _ _ _ _ H Hi).
Qed.

Lemma sorted_lookup_lt (l : list Z) : ∀ i j x y,
  StronglySorted Z.lt l → i < j → l !! i = Some x → l !! j = Some y → (x < y)%Z.
Proof.
  induction l as [|z l IH]; intros i j x y Hs Hij Hi Hj; [done|].
  apply StronglySorted_inv in Hs as [Hs Hz].
  destruct j as [|j]; [lia|]. destruct i as [|i].
  - injection Hi as <-. simpl in Hj.
    apply (Forall_lookup_1 _ _ _ _ Hz Hj).
  - apply (IH i j); [done|lia|done..].
Qed.

Lemma sizes_increasing i j (x y : Z) :
  i < j → CacheInfo.sizes !! i = Some x → CacheInfo.sizes !! j = Some y → (x < y)%Z.
Proof.
  apply sorted_lookup_lt.
  repeat (apply SSorted_cons; [|repeat constructor; lia]). constructor.
Qed.

Lemma jump_15_13 (times : list double) s :
  jump 1.5 times s = true → jump 1.3 times s = true.
Proof.
  unfold jump. destruct (ratio times s) as [r|]; [|done].
  apply (ltb_trans 1.3 1.5 r). reflexivity.
Qed.

Lemma first_jump_keep n q size :
  first_jump n q size → (size = 0%Z → q n = false) → first_jump (S n) q size.
Proof.
  intros [[-> Hno]|(s & Hs & Hsz & Hq & Hfirst)] Hn.
  - left. split; [done|]. intros s Hs.
    destruct (decide (s = n)) as [->|]; [by apply Hn|apply Hno; lia].
  - right. exists s. split; [lia|done].
Qed.

Lemma first_jump_latch n q size :
  1 ≤ n → first_jump n q 0 → q n = true → CacheInfo.sizes !! (n - 1) = Some size →
  first_jump (S n) q size.
Proof.
  intros Hn [[_ Hno]|(s & _ & Hsz & _)] Hq Hsize.
  - right. exists n. split; [lia|]. do 2 (split; [done|]). done.
  - apply sizes_positive in Hsz. lia.
Qed.

Lemma first_jump_ext n q q' size :
  (∀ s, 1 ≤ s < n → q s = q' s) → first_jump n q size → first_jump n q' size.
Proof.
  intros Heq [[-> Hno]|(s & Hs & Hsz & Hq & Hfirst)].
  - left. split; [done|]. intros s Hs. rewrite <- Heq by done. by apply Hno.
  - right. exists s. split; [done|]. split; [done|].
    split; [by rewrite <- Heq|]. intros s' Hs'. rewrite <- Heq by lia.
    by apply Hfirst.
Qed.

Lemma cache_sizes_step_inv (times : list double) a st :
  1 ≤ a → a < length times → a ≤ length CacheInfo.sizes →
  cache_sizes_inv times a st →
  ∃ st', CacheInfo.cache_sizes_step times st a = Some st'
         ∧ cache_sizes_inv times (S a) st'.
Proof.
  intros Ha Hlen Hsz. destruct st as [[l1 l2] l3]. intros (H1 & H2 & H3).
  destruct (ratio_defined times a Hlen) as [r Hr].
  destruct (lookup_lt_is_Some_2 CacheInfo.sizes (a - 1) ltac:(lia)) as [sz Hsize].
  pose proof (sizes_positive _ _ Hsize) as Hpos.
  unfold CacheInfo.cache_sizes_step. rewrite Hr, Hsize. cbn [mbind option_bind].
  assert (J1 : l1_jump times a = (sz <=? 192*1024)%Z && (1.3 <? r)%float)
    by (unfold l1_jump, jump; by rewrite Hsize, Hr).
  assert (J2 : l2_jump times a
               = (192*1024 <? sz)%Z && (sz <=? 16*1024*1024)%Z && (1.3 <? r)%float)
    by (unfold l2_jump, jump; by rewrite Hsize, Hr).
  assert (J3 : ∀ l, l3_free_jump times l a
               = (4*1024*1024 <? sz)%Z && (1.5 <? r)%float && negb (sz =? l)%Z)
    by (intros l; unfold l3_free_jump, l3_jump, jump; by rewrite Hsize, Hr).
  destruct ((l1 =? 0)%Z && (sz <=? 192*1024)%Z && (1.3 <? r)%float) eqn:B1.
  { apply andb_prop in B1 as [[E1%Z.eqb_eq Hr1%Z.leb_le]%andb_prop Hj]. subst l1.
    eexists. split; [done|]. split; [|split].
    - apply first_jump_latch; [done..| |done].
      rewrite J1, Hj. by apply andb_true_intro, conj; [apply Z.leb_le|].
    - apply first_jump_keep; [done|]. intros _. rewrite J2.
      destruct (Z.ltb_spec (192*1024) sz); [lia|done].
    - apply first_jump_keep; [done|]. intros _. rewrite J3.
      destruct (Z.ltb_spec (4*1024*1024) sz); [lia|done]. }
  destruct ((l2 =? 0)%Z && (192*1024 <? sz)%Z && (sz <=? 16*1024*1024)%Z
            && (1.3 <? r)%float) eqn:B2.
  { apply andb_prop in B2
      as [[[E2%Z.eqb_eq Hr2%Z.ltb_lt]%andb_prop Hr2'%Z.leb_le]%andb_prop Hj].
    subst l2. eexists. split; [done|]. split; [|split].
    - apply first_jump_keep; [done|]. intros _. rewrite J1.
      destruct (Z.leb_spec sz (192*1024)); [lia|done].
    - apply first_jump_latch; [done..| |done].
      rewrite J2, Hj.
      destruct (Z.ltb_spec (192*1024) sz), (Z.leb_spec sz (16*1024*1024));
        done || lia.
    - apply first_jump_keep.
      + apply (first_jump_ext a (l3_free_jump times 0)); [|done].
        intros s Hs. unfold l3_free_jump.
        destruct (CacheInfo.sizes !! (s - 1)) as [sz'|] eqn:Hsz'; [|done].
        pose proof (sizes_positive _ _ Hsz').
        pose proof (sizes_increasing (s - 1) (a - 1) sz' sz ltac:(lia) Hsz' Hsize).
        f_equal. destruct (Z.eqb_spec sz' 0), (Z.eqb_spec sz' sz); done || lia.
      + intros _. rewrite J3, Z.eqb_refl. by rewrite andb_false_r. }
  destruct ((l3 =? 0)%Z && (4*1024*1024 <? sz)%Z && (1.5 <? r)%float) eqn:B3.
  { apply andb_prop in B3 as [[E3%Z.eqb_eq Hr3%Z.ltb_lt]%andb_prop Hj]. subst l3.
    eexists. split; [done|]. split; [|split].
    - apply first_jump_keep; [done|]. intros _. rewrite J1.
      destruct (Z.leb_spec sz (192*1024)); [lia|done].
    - apply first_jump_keep; [done|]. intros ->. rewrite J2. exact B2.
    - apply first_jump_latch; [done..| |done].
      rewrite J3, Hj.
      destruct (Z.ltb_spec (4*1024*1024) sz); [|lia]. simpl.
      destruct (Z.eqb_spec sz l2) as [<-|]; [|done].
      destruct H2 as [[-> _]|(s2 & Hs2 & Hsz2 & _)]; [lia|].
      pose proof (sizes_increasing (s2 - 1) (a - 1) sz sz ltac:(lia) Hsz2 Hsize).
      lia. }
  eexists. split; [done|]. split; [|split].
  - apply first_jump_keep; [done|]. intros ->. by rewrite J1.
  - apply first_jump_keep; [done|]. intros ->. rewrite J2. exact B2.
  - apply first_jump_keep; [done|]. intros ->. rewrite J3.
    change ((4*1024*1024 <? sz)%Z && (1.5 <? r)%float = false) in B3.
    by rewrite B3.
Qed.

Lemma cache_sizes_scan_inv (times : list double) len : ∀ a st,
  1 ≤ a → a + len ≤ length times → a + len ≤ S (length CacheInfo.sizes) →
  cache_sizes_inv times a st →
  ∃ st', CacheInfo.cache_sizes_scan times (seq a len) st = Some st'
         ∧ cache_sizes_inv times (a + len) st'.
Proof.
  induction len as [|len IH]; intros a st Ha Hlen Hsz Hinv.
  { exists st. split; [done|]. by replace (a + 0) with a by lia. }
  destruct (cache_sizes_step_inv times a st) as (st1 & Hst1 & Hinv1);
    [lia..|done|].
  cbn [seq CacheInfo.cache_sizes_scan]. rewrite Hst1. cbn [mbind option_bind].
  replace (a + S len) with (S a + len) by lia. apply IH; [lia..|done].
Qed.

(** C4, as stated, fails for L3: on a curve with two jumps above
    4 MiB, the first of them (after the 6 MiB footprint) qualifies for
    L3, yet L3 is latched at the second one (12 MiB). *)
Lemma C4_l3_not_at_first_qualifying_jump :
  ∃ l1 l2 l3,
    CacheInfo.detect_cache_sizes two_jump_curve = Some (l1, l2, l3)
    ∧ ¬ first_jump CacheInfo.num_sizes (l3_jump two_jump_curve) l3.
Proof.
  exists 0%Z, (6*1024*1024)%Z, (12*1024*1024)%Z. split; [reflexivity|].
  intros [[H _]|(s & Hs & Hsz & _ & Hfirst)]; [discriminate H|].
  change CacheInfo.num_sizes with 24 in Hs.
  assert (s = 21) as ->.
  { do 24 (destruct s as [|s]; [first [lia|discriminate Hsz|reflexivity]|]). lia. }
  specialize (Hfirst 19 ltac:(lia)). discriminate Hfirst.
Qed.

(** C4, amended: for every latency curve over the footprint sweep the
    scan returns three sizes; L1 and L2 are each the footprint before
    the first jump that qualifies for the tier (ratio above 1.3 after a
    footprint of at most 192 KiB, resp. above 192 KiB and at most
    16 MiB), L3 is the footprint before the first jump with ratio above
    1.5 after a footprint above 4 MiB other than the jump that set L2;
    a tier without such a jump is 0; and the sizes that are not 0 are
    strictly increasing. *)
Theorem C4_tiers_first_jump_and_ordered (times : list double)
    (Hlen : CacheInfo.num_sizes ≤ length times) :
  ∃ l1 l2 l3,
    CacheInfo.detect_cache_sizes times = Some (l1, l2, l3)
    ∧ first_jump CacheInfo.num_sizes (l1_jump times) l1
    ∧ first_jump CacheInfo.num_sizes (l2_jump times) l2
    ∧ first_jump CacheInfo.num_sizes (l3_free_jump times l2) l3
    ∧ (l1 ≠ 0 → l2 ≠ 0 → l1 < l2)%Z
    ∧ (l2 ≠ 0 → l3 ≠ 0 → l2 < l3)%Z
    ∧ (l1 ≠ 0 → l3 ≠ 0 → l1 < l3)%Z.
Proof.
  change CacheInfo.num_sizes with 24 in *.
  destruct (cache_sizes_scan_inv times 23 1 (0, 0, 0)%Z)
    as ([[l1 l2] l3] & Hscan & H1 & H2 & H3); [simpl; lia..| |].
  { repeat split; left; (split; [done|intros; lia]). }
  exists l1, l2, l3. do 4 (split; [done|]).
  assert (B1 : l1 ≠ 0%Z → (l1 ≤ 192*1024)%Z).
  { intros Hne. destruct H1 as [[-> _]|(s & _ & Hsz & Hq & _)]; [done|].
    unfold l1_jump in Hq. rewrite Hsz in Hq.
    apply andb_prop in Hq as [?%Z.leb_le _]. done. }
  split; [|split].
  - intros Hne1 Hne2. specialize (B1 Hne1).
    destruct H2 as [[-> _]|(s & _ & Hsz & Hq & _)]; [done|].
    unfold l2_jump in Hq. rewrite Hsz in Hq.
    apply andb_prop in Hq as [[?%Z.ltb_lt _]%andb_prop _]. lia.
  - intros Hne2 Hne3.
    destruct H2 as [[-> _]|(s2 & Hs2 & Hsz2 & Hq2 & Hfirst2)]; [done|].
    destruct H3 as [[-> _]|(s3 & Hs3 & Hsz3 & Hq3 & _)]; [done|].
    unfold l3_free_jump in Hq3. rewrite Hsz3 in Hq3.
    apply andb_prop in Hq3 as [Hj3 Hne%negb_true_iff%Z.eqb_neq].
    destruct (decide (s2 < s3)) as [Hlt|Hge].
    { apply (sizes_increasing (s2 - 1) (s3 - 1)); [lia|done..]. }
    assert (s3 < s2) by (destruct (decide (s3 = s2)); [congruence|lia]).
    pose proof (sizes_increasing (s3 - 1) (s2 - 1) l3 l2 ltac:(lia) Hsz3 Hsz2).
    specialize (Hfirst2 s3 ltac:(lia)).
    unfold l2_jump in Hq2, Hfirst2. rewrite Hsz2 in Hq2. rewrite Hsz3 in Hfirst2.
    unfold l3_jump in Hj3. rewrite Hsz3 in Hj3.
    apply andb_prop in Hj3 as [?%Z.ltb_lt Hj15].
    apply andb_prop in Hq2 as [[_ ?%Z.leb_le]%andb_prop _].
    rewrite (jump_15_13 _ _ Hj15) in Hfirst2.
    destruct (Z.ltb_spec (192*1024) l3), (Z.leb_spec l3 (16*1024*1024));
      done || lia.
  - intros Hne1 Hne3. specialize (B1 Hne1).
    destruct H3 as [[-> _]|(s3 & _ & Hsz3 & Hq3 & _)]; [done|].
    unfold l3_free_jump, l3_jump in Hq3. rewrite Hsz3 in Hq3.
    apply andb_prop in Hq3 as [[?%Z.ltb_lt _]%andb_prop _]. lia.
Qed.

Lemma C4_tiers_first_jump_and_ordered_witness :
  ∃ l1 l2 l3,
    CacheInfo.detect_cache_sizes two_jump_curve = Some (l1, l2, l3)
    ∧ first_jump CacheInfo.num_sizes (l1_jump two_jump_curve) l1
    ∧ first_jump CacheInfo.num_sizes (l2_jump two_jump_curve) l2
    ∧ first_jump CacheInfo.num_sizes (l3_free_jump two_jump_curve l2) l3
    ∧ (l1 ≠ 0 → l2 ≠ 0 → l1 < l2)%Z
    ∧ (l2 ≠ 0 → l3 ≠ 0 → l2 < l3)%Z
    ∧ (l1 ≠ 0 → l3 ≠ 0 → l1 < l3)%Z.
Proof.
  apply (C4_tiers_first_jump_and_ordered two_jump_curve). vm_compute. lia.
Defined.

(** ** The pointer chase *)

(** Every call of [rand()] returns 1: the shuffle of two elements swaps
    the last one with itself. *)
Example pointer_chase_two_elements_odd_rand :
  CacheInfo.create_pointer_chase (λ _, 1) [7; 7] [0; 0] 2 = Some [1; 0]
  ∧ CacheInfoCores.create_pointer_chase (λ _, 1) [0; 0] 2 = Some [1; 0]
  ∧ single_cycle [1; 0].
Proof.
  do 2 (split; [reflexivity|]). intros start Hs.
  destruct start as [|[|start]]; [| |simpl in Hs; lia].
  - exists [0; 1; 0]. repeat split; [|repeat constructor].
    apply NoDup_cons. split; [not_elem|apply NoDup_singleton].
  - exists [1; 0; 1]. repeat split; [|repeat constructor].
    apply NoDup_cons. split; [not_elem|apply NoDup_singleton].
Qed.

Example pointer_chase_one_element :
  CacheInfo.create_pointer_chase rand_zero [7] [0] 1 = Some [0]
  ∧ CacheInfoCores.create_pointer_chase rand_zero [0] 1 = Some [0]
  ∧ single_cycle [0].
Proof.
  do 2 (split; [reflexivity|]). intros [|start] Hs; [|simpl in Hs; lia].
  exists [0; 0]. repeat split; [apply NoDup_singleton|repeat constructor].
Qed.

(** C1 at two elements with [rand()] returning 0: both builders return
    an array that is not a single cycle.  In [cache_info.c] the walk
    that links the chase comes back to element 0 early, overwrites its
    link and leaves element 1 as the fresh block had it (7 here);
    in [cache_info_cores.c] the shuffled array is the identity. *)
Theorem C1_pointer_chase_not_single_cycle :
  CacheInfo.create_pointer_chase rand_zero [7; 7] [0; 0] 2 = Some [1; 7]
  ∧ ¬ single_cycle [1; 7]
  ∧ CacheInfoCores.create_pointer_chase rand_zero [0; 0] 2 = Some [0; 1]
  ∧ ¬ single_cycle [0; 1].
Proof.
  split; [reflexivity|]. split; [|split; [reflexivity|]].
  - intros H. destruct (H 0) as (t & Ht & _ & Hall & _); [simpl; lia|].
    injection Ht as <-. apply Forall_cons in Hall as [_ Hall].
    apply Forall_cons in Hall as [_ Hall]. apply Forall_cons in Hall as [H7 _].
    simpl in H7. lia.
  - intros H. destruct (H 0) as (t & Ht & Hnd & _); [simpl; lia|].
    injection Ht as <-. simpl in Hnd.
    apply NoDup_cons in Hnd as [Hin _]. apply Hin. left.
Qed.

(** ** Allocation failure *)

Lemma l1_latched_at_first_position (times : list double) (l1 : Z) :
  l1_jump times 1 = true → first_jump CacheInfo.num_sizes (l1_jump times) l1 →
  l1 = 4096%Z.
Proof.
  intros Hq [[_ Hno]|(s & Hs & Hsz & _ & Hfirst)].
  - rewrite Hno in Hq; [done|]. vm_compute; lia.
  - destruct (decide (s = 1)) as [->|Hne].
    + by injection Hsz as <-.
    + rewrite Hfirst in Hq; [done|lia].
Qed.

(** C8 where it fails: when [malloc] fails in [probe_cache_line_size],
    [probe_associativity], [probe_page_size] or [probe_tlb_size] the
    probe returns its default at once; [probe_cache_sizes] leaves its
    sampling loop and runs the tier scan over the two samples it has
    and whatever [times] held before, and reports an L1 size of 4096
    bytes instead of 0. *)
Theorem C8_cache_sizes_scans_after_failed_malloc (stack : list double)
    (Hstack : length stack = 32) :
  (∀ total_time st, CacheInfo.probe_cache_line_size false total_time st = Some 64%Z)
  ∧ (∀ total_time st, CacheInfo.probe_associativity false total_time st = Some 8%Z)
  ∧ (∀ total_time st, TlbInfo.probe_page_size false total_time st = Some 4096%Z)
  ∧ (∀ page_size total_time st,
       TlbInfo.probe_tlb_size page_size false total_time st = Some 64%Z)
  ∧ ∃ l2 l3, CacheInfo.probe_cache_sizes third_malloc_fails ticks_doubling stack
             = Some (4096, l2, l3)%Z.
Proof.
  do 4 (split; [reflexivity|]).
  unfold CacheInfo.probe_cache_sizes.
  assert (Hcurve : CacheInfo.sample_cache_sizes third_malloc_fails ticks_doubling
                     (range 0 CacheInfo.num_sizes) = Some [1; 2]%float)
    by (vm_compute; reflexivity).
  rewrite Hcurve. cbn [mbind option_bind].
  set (times := store_prefix stack [1; 2]%float).
  assert (Hlen : length times = 32).
  { unfold times. rewrite store_prefix_length; simpl; lia. }
  destruct (cache_sizes_scan_inv times 23 1 (0, 0, 0)%Z)
    as ([[l1 l2] l3] & Hscan & H1 & _); [rewrite ?Hlen; simpl; lia..| |].
  { repeat split; left; (split; [done|intros; lia]). }
  exists l2, l3. unfold CacheInfo.detect_cache_sizes.
  change (range 1 CacheInfo.num_sizes) with (seq 1 23). rewrite Hscan.
  rewrite (l1_latched_at_first_position times l1 eq_refl H1). reflexivity.
Qed.

Lemma C8_cache_sizes_scans_after_failed_malloc_witness :
  (∀ total_time st, CacheInfo.probe_cache_line_size false total_time st = Some 64%Z)
  ∧ (∀ total_time st, CacheInfo.probe_associativity false total_time st = Some 8%Z)
  ∧ (∀ total_time st, TlbInfo.probe_page_size false total_time st = Some 4096%Z)
  ∧ (∀ page_size total_time st,
       TlbInfo.probe_tlb_size page_size false total_time st = Some 64%Z)
  ∧ ∃ l2 l3, CacheInfo.probe_cache_sizes third_malloc_fails ticks_doubling
               (replicate 32 0%float)
             = Some (4096, l2, l3)%Z.
Proof.
  apply (C8_cache_sizes_scans_after_failed_malloc (replicate 32 0%float)).
  reflexivity.
Defined.

Example cache_sizes_after_failed_malloc_zero_stack :
  CacheInfo.probe_cache_sizes third_malloc_fails ticks_doubling
    (replicate 32 0%float) = Some (4096, 0, 0)%Z.
Proof. vm_compute. reflexivity. Qed.

(** ** More on the vote *)

Lemma occurrences_two_values (l : list Z) (r v : Z) :
  r ≠ v → (occurrences l r + occurrences l v ≤ Z.of_nat (length l))%Z.
Proof.
  intros Hne. induction l as [|x l IH]; [unfold occurrences; simpl; lia|].
  rewrite !occurrences_cons. simpl length.
  destruct (decide (x = r)), (decide (x = v)); try congruence; lia.
Qed.

Lemma occurrences_witness (l : list Z) (v : Z) :
  (0 < occurrences l v)%Z → ∃ j, l !! j = Some v.
Proof.
  induction l as [|x l IH]; [unfold occurrences; simpl; lia|].
  rewrite occurrences_cons. destruct (decide (x = v)) as [->|Hne].
  - intros _. by exists 0.
  - intros H. destruct IH as [j Hj]; [lia|]. by exists (S j).
Qed.

(** A value that more than five of the ten runs returned is the one the
    vote reports. *)
Theorem vote_strict_majority_wins (results : list Z) (v : Z)
    (Hlen : length results = 10) (Hmaj : (5 < occurrences results v)%Z) :
  TlbInfo.most_frequent results = Some v.
Proof.
  destruct (most_frequent_spec results Hlen) as (r & i0 & Hr & Hi0 & Hall & _).
  destruct (occurrences_witness results v ltac:(lia)) as [j Hj].
  specialize (Hall j v Hj). rewrite Hr. f_equal.
  destruct (decide (r = v)) as [|Hne]; [done|].
  pose proof (occurrences_two_values results r v Hne). lia.
Qed.

Lemma vote_strict_majority_wins_witness :
  TlbInfo.most_frequent ten_results = Some 64%Z.
Proof.
  apply (vote_strict_majority_wins ten_results 64%Z); [reflexivity|].
  vm_compute. reflexivity.
Defined.

(** ** First match and range of the scans *)

(** The line-size scan stops at the first position that passes its test. *)
Lemma line_size_scan_first (norm_times : list double) len : ∀ a detected,
  1 ≤ a → a + len < length norm_times → a + len ≤ length CacheInfo.strides →
  ∃ v, CacheInfo.line_size_scan norm_times (seq a len) detected = Some v
       ∧ ((v = detected ∧ ∀ s, a ≤ s < a + len → rise_then_level norm_times s = false)
          ∨ ∃ s, a ≤ s < a + len ∧ CacheInfo.strides !! s = Some v
                 ∧ rise_then_level norm_times s = true
                 ∧ ∀ s', a ≤ s' < s → rise_then_level norm_times s' = false).
Proof.
  induction len as [|len IH]; intros a detected Ha Hlen Hp; simpl.
  { eexists; split; [done|]. left. split; [done|]. intros; lia. }
  destruct (ratio_defined norm_times a ltac:(lia)) as [gb Hgb].
  destruct (ratio_defined norm_times (a + 1) ltac:(lia)) as [ga Hga].
  rewrite Hgb, Hga. simpl.
  assert (Hpat : rise_then_level norm_times a
                 = (1.3 <? gb)%float && (ga <? 1.3)%float)
    by (unfold rise_then_level; by rewrite Hgb, Hga).
  destruct ((1.3 <? gb)%float && (ga <? 1.3)%float) eqn:Htest.
  - destruct (lookup_lt_is_Some_2 CacheInfo.strides a ltac:(lia)) as [v Hv].
    exists v. split; [done|]. right. exists a.
    repeat split; [lia..|done|done|intros; lia].
  - destruct (IH (S a) detected) as (v & -> & Hv); [lia..|].
    exists v. split; [done|]. destruct Hv as [[-> Hn]|(s & Hs & Hv & Hj & Hn)].
    + left. split; [done|]. intros s Hs.
      destruct (decide (s = a)) as [->|]; [done|apply Hn; lia].
    + right. exists s. repeat split; [lia..|done|done|].
      intros s' Hs'. destruct (decide (s' = a)) as [->|]; [done|apply Hn; lia].
Qed.

(** Whatever the curve, the line-size detector reports the stride of the
    first sweep index from 2 to 6 at which the ratio to the previous
    entry is above 1.3 and the next ratio is below 1.3, and 64 when no
    index passes; a later index that passes as well is not looked at. *)
Theorem line_size_first_match (norm_times : list double)
    (Hlen : CacheInfo.num_strides ≤ length norm_times) :
  ∃ v, CacheInfo.detect_line_size norm_times = Some v
       ∧ ((v = 64%Z ∧ ∀ s, 2 ≤ s < 7 → rise_then_level norm_times s = false)
          ∨ ∃ s, 2 ≤ s < 7 ∧ CacheInfo.strides !! s = Some v
                 ∧ rise_then_level norm_times s = true
                 ∧ ∀ s', 2 ≤ s' < s → rise_then_level norm_times s' = false).
Proof.
  change CacheInfo.num_strides with 8 in Hlen.
  apply (line_size_scan_first norm_times 5 2 64); simpl; lia.
Qed.

Lemma line_size_first_match_witness :
  ∃ v, CacheInfo.detect_line_size synthetic_curve = Some v
       ∧ ((v = 64%Z ∧ ∀ s, 2 ≤ s < 7 → rise_then_level synthetic_curve s = false)
          ∨ ∃ s, 2 ≤ s < 7 ∧ CacheInfo.strides !! s = Some v
                 ∧ rise_then_level synthetic_curve s = true
                 ∧ ∀ s', 2 ≤ s' < s → rise_then_level synthetic_curve s' = false).
Proof. apply (line_size_first_match synthetic_curve). vm_compute. lia. Defined.

(** The page-size scan stops at the first ratio below 0.6. *)
Lemma page_size_scan_first (times : list double) len : ∀ a detected,
  1 ≤ a → a + len ≤ length times → a + len ≤ S (length TlbInfo.strides) →
  ∃ v, TlbInfo.page_size_scan times (seq a len) detected = Some v
       ∧ ((v = detected ∧ ∀ s, a ≤ s < a + len → drop_below 0.6 times s = false)
          ∨ ∃ s, a ≤ s < a + len ∧ TlbInfo.strides !! (s - 1) = Some v
                 ∧ drop_below 0.6 times s = true
                 ∧ ∀ s', a ≤ s' < s → drop_below 0.6 times s' = false).
Proof.
  induction len as [|len IH]; intros a detected Ha Hlen Hp; simpl.
  { eexists; split; [done|]. left. split; [done|]. intros; lia. }
  destruct (ratio_defined times a ltac:(lia)) as [r Hr]. rewrite Hr. simpl.
  destruct (r <? 0.6)%float eqn:Hdrop.
  - destruct (lookup_lt_is_Some_2 TlbInfo.strides (a - 1) ltac:(lia)) as [v Hv].
    exists v. split; [done|]. right. exists a.
    repeat split; [lia..|done| |intros; lia].
    unfold drop_below. by rewrite Hr.
  - destruct (IH (S a) detected) as (v & -> & Hv); [lia..|].
    assert (Ha0 : drop_below 0.6 times a = false)
      by (unfold drop_below; by rewrite Hr).
    exists v. split; [done|]. destruct Hv as [[-> Hn]|(s & Hs & Hv & Hj & Hn)].
    + left. split; [done|]. intros s Hs.
      destruct (decide (s = a)) as [->|]; [done|apply Hn; lia].
    + right. exists s. repeat split; [lia..|done|done|].
      intros s' Hs'. destruct (decide (s' = a)) as [->|]; [done|apply Hn; lia].
Qed.

(** Whatever the curve, the page-size detector reports the stride before
    the first sweep index from 2 to 5 whose ratio to the previous entry
    is below 0.6, and 4096 when there is none; the ratio at index 1
    (1024 against 512 bytes) is never looked at. *)
Theorem page_size_first_drop (times : list double)
    (Hlen : TlbInfo.num_strides ≤ length times) :
  ∃ v, TlbInfo.detect_page_size times = Some v
       ∧ ((v = 4096%Z ∧ ∀ s, 2 ≤ s < 6 → drop_below 0.6 times s = false)
          ∨ ∃ s, 2 ≤ s < 6 ∧ TlbInfo.strides !! (s - 1) = Some v
                 ∧ drop_below 0.6 times s = true
                 ∧ ∀ s', 2 ≤ s' < s → drop_below 0.6 times s' = false).
Proof.
  change TlbInfo.num_strides with 6 in Hlen.
  apply (page_size_scan_first times 4 2 4096); simpl; lia.
Qed.

Lemma page_size_first_drop_witness :
  ∃ v, TlbInfo.detect_page_size [8; 1; 1; 1; 1; 0.5]%float = Some v
       ∧ ((v = 4096%Z ∧ ∀ s, 2 ≤ s < 6 →
                          drop_below 0.6 [8; 1; 1; 1; 1; 0.5]%float s = false)
          ∨ ∃ s, 2 ≤ s < 6 ∧ TlbInfo.strides !! (s - 1) = Some v
                 ∧ drop_below 0.6 [8; 1; 1; 1; 1; 0.5]%float s = true
                 ∧ ∀ s', 2 ≤ s' < s →
                         drop_below 0.6 [8; 1; 1; 1; 1; 0.5]%float s' = false).
Proof.
  apply (page_size_first_drop [8; 1; 1; 1; 1; 0.5]%float). vm_compute. lia.
Defined.

Example page_size_drop_at_index_1_ignored :
  drop_below 0.6 [8; 1; 1; 1; 1; 0.5]%float 1 = true
  ∧ TlbInfo.detect_page_size [8; 1; 1; 1; 1; 0.5]%float = Some 8192%Z.
Proof. split; vm_compute; reflexivity. Qed.

(** ** The probes as a whole *)

Lemma sample_line_size_total (total_time : nat → Z) :
  ∃ curve, mapM (CacheInfo.sample_line_size total_time)
             (range 0 CacheInfo.num_strides) = Some curve
           ∧ length curve = 8.
Proof. eexists. split; reflexivity. Qed.

Lemma sample_associativity_total (total_time : nat → Z) :
  ∃ curve, mapM (CacheInfo.sample_associativity total_time)
             (range 0 CacheInfo.num_tests) = Some curve
           ∧ length curve = 11.
Proof. eexists. split; reflexivity. Qed.


(** For every allocation outcome, every tick count and every prior
    content of [times], [probe_page_size] returns 1024, 2048, 4096 or
    8192: the sweep ends 512 and 16384 are never reported. *)
Theorem probe_page_size_range (malloc_ok : bool) (total_time : nat → Z)
    (stack : list double) (Hstack : length stack = 8) :
  ∃ v, TlbInfo.probe_page_size malloc_ok total_time stack = Some v
       ∧ v ∈ [1024; 2048; 4096; 8192]%Z ∧ v ∉ [512; 16384]%Z.
Proof.
  unfold TlbInfo.probe_page_size. destruct malloc_ok; simpl negb; cbv iota.
  2:{ eexists. split; [done|]. split; [elem_here|not_elem]. }
  destruct (sample_page_size_total total_time) as (curve & -> & Hlen).
  cbn [mbind option_bind].
  destruct (page_size_scan_first (store_prefix stack curve) 4 2 4096)
    as (v & Hv & Hin); [rewrite ?store_prefix_length by lia; simpl; lia..|].
  exists v. split; [exact Hv|].
  destruct Hin as [[-> _]|(s & Hs & Hst & _)]; [split; [elem_here|not_elem]|].
  destruct s as [|[|[|[|[|[|s]]]]]]; try lia; injection Hst as <-;
    (split; [elem_here|not_elem]).
Qed.

Lemma probe_page_size_range_witness :
  ∃ v, TlbInfo.probe_page_size true (λ _, 3000000%Z) (replicate 8 0%float) = Some v
       ∧ v ∈ [1024; 2048; 4096; 8192]%Z ∧ v ∉ [512; 16384]%Z.
Proof.
  apply (probe_page_size_range true (λ _, 3000000%Z) (replicate 8 0%float)).
  reflexivity.
Defined.



(** For every allocation outcome, tick count and prior content of
    [times], [probe_associativity] returns one of 2, 4, ..., 24: the
    largest way count tested, 32, is never reported. *)
Theorem probe_associativity_range (malloc_ok : bool) (total_time : nat → Z)
    (stack : list double) (Hstack : length stack = 16) :
  ∃ v, CacheInfo.probe_associativity malloc_ok total_time stack = Some v
       ∧ v ∈ [2; 4; 6; 8; 10; 12; 14; 16; 20; 24]%Z ∧ v ≠ 32%Z.
Proof.
  unfold CacheInfo.probe_associativity. destruct malloc_ok; simpl negb; cbv iota.
  2:{ eexists. split; [done|]. split; [elem_here|done]. }
  destruct (sample_associativity_total total_time) as (curve & -> & Hlen).
  cbn [mbind option_bind].
  destruct (associativity_scan_result (store_prefix stack curve)
              (range 1 CacheInfo.num_tests) 8 1.0%float) as (v & Hv & Hin).
  { rewrite store_prefix_length by lia. repeat constructor; simpl; lia. }
  exists v. split; [exact Hv|].
  destruct Hin as [->|(t & Ht & Hst)]; [split; [elem_here|done]|].
  vm_compute in Ht. elem_cases Ht; injection Hst as <-; (split; [elem_here|done]).
Qed.

Lemma probe_associativity_range_witness :
  ∃ v, CacheInfo.probe_associativity true (λ _, 1000000%Z) (replicate 16 0%float)
       = Some v
       ∧ v ∈ [2; 4; 6; 8; 10; 12; 14; 16; 20; 24]%Z ∧ v ≠ 32%Z.
Proof.
  apply (probe_associativity_range true (λ _, 1000000%Z) (replicate 16 0%float)).
  reflexivity.
Defined.





(** ** No read of an entry that was not written *)

Lemma ratio_app (c tail : list double) (s : nat) :
  s < length c → ratio (c ++ tail) s = ratio c s.
Proof.
  intros Hs. unfold ratio. by rewrite !lookup_app_l by lia.
Qed.

Lemma cache_sizes_scan_app (c tail : list double) ss : ∀ st,
  Forall (λ s, s < length c) ss →
  CacheInfo.cache_sizes_scan (c ++ tail) ss st = CacheInfo.cache_sizes_scan c ss st.
Proof.
  induction ss as [|s ss IH]; intros st Hss; simpl; [done|].
  apply Forall_cons in Hss as [Hs Hss].
  unfold CacheInfo.cache_sizes_step. rewrite ratio_app by lia.
  destruct (CacheInfo.cache_sizes_step c st s) eqn:E;
    unfold CacheInfo.cache_sizes_step in E; rewrite E; simpl; [by apply IH|done].
Qed.

Lemma sample_cache_sizes_full (malloc_ok : nat → bool) (total_time : nat → Z) ss :
  Forall (λ s, s < length CacheInfo.sizes ∧ malloc_ok s = true) ss →
  ∃ curve, CacheInfo.sample_cache_sizes malloc_ok total_time ss = Some curve
           ∧ length curve = length ss.
Proof.
  induction 1 as [|s ss [Hs Hok] _ (rest & IH & Hlen)]; simpl.
  { by exists []. }
  destruct (lookup_lt_is_Some_2 CacheInfo.sizes s Hs) as [size ->]. simpl.
  rewrite Hok, IH. simpl. eexists. split; [done|]. simpl. lia.
Qed.

(** When its allocations succeed, what a probe returns does not depend
    on what its [times] array held before the sweep: every entry the
    detection reads was written by the sweep.  This holds for the line
    size, the associativity, the page size, the TLB size and, when no
    footprint's [malloc] fails, the cache sizes. *)
Theorem probes_ignore_old_stack (total_time : nat → Z) (page_size : Z)
    (malloc_ok : nat → bool) (stack stack' : list double)
    (Hok : ∀ s, malloc_ok s = true) :
  CacheInfo.probe_cache_line_size true total_time stack
  = CacheInfo.probe_cache_line_size true total_time stack'
  ∧ CacheInfo.probe_associativity true total_time stack
    = CacheInfo.probe_associativity true total_time stack'
  ∧ TlbInfo.probe_page_size true total_time stack
    = TlbInfo.probe_page_size true total_time stack'
  ∧ TlbInfo.probe_tlb_size page_size true total_time stack
    = TlbInfo.probe_tlb_size page_size true total_time stack'
  ∧ CacheInfo.probe_cache_sizes malloc_ok total_time stack
    = CacheInfo.probe_cache_sizes malloc_ok total_time stack'.
Proof.
  do 4 (split; [reflexivity|]).
  unfold CacheInfo.probe_cache_sizes.
  destruct (sample_cache_sizes_full malloc_ok total_time
              (range 0 CacheInfo.num_sizes)) as (curve & -> & Hlen).
  { apply Forall_forall. intros s Hs%elem_of_seq. split; [simpl in *; lia|done]. }
  cbn [mbind option_bind]. unfold CacheInfo.detect_cache_sizes, store_prefix.
  rewrite !cache_sizes_scan_app; [done|rewrite Hlen; repeat constructor; simpl; lia..].
Qed.

Lemma probes_ignore_old_stack_witness :
  CacheInfo.probe_cache_line_size true (λ _, 1000000%Z) (replicate 10 0%float)
  = CacheInfo.probe_cache_line_size true (λ _, 1000000%Z) (replicate 10 7%float)
  ∧ CacheInfo.probe_associativity true (λ _, 1000000%Z) (replicate 10 0%float)
    = CacheInfo.probe_associativity true (λ _, 1000000%Z) (replicate 10 7%float)
  ∧ TlbInfo.probe_page_size true (λ _, 1000000%Z) (replicate 10 0%float)
    = TlbInfo.probe_page_size true (λ _, 1000000%Z) (replicate 10 7%float)
  ∧ TlbInfo.probe_tlb_size 4096 true (λ _, 1000000%Z) (replicate 10 0%float)
    = TlbInfo.probe_tlb_size 4096 true (λ _, 1000000%Z) (replicate 10 7%float)
  ∧ CacheInfo.probe_cache_sizes (λ _, true) (λ _, 1000000%Z) (replicate 10 0%float)
    = CacheInfo.probe_cache_sizes (λ _, true) (λ _, 1000000%Z) (replicate 10 7%float).
Proof.
  apply (probes_ignore_old_stack (λ _, 1000000%Z) 4096 (λ _, true)
           (replicate 10 0%float) (replicate 10 7%float)).
  reflexivity.
Defined.

(** ** The shuffle and what is built from it *)

(** The shuffle reads and writes inside the array and permutes it. *)
Lemma shuffle_permutation (rnd : nat → nat) i : ∀ k (array : list nat),
  i < length array →
  ∃ a, CacheInfo.shuffle rnd k i array = Some a ∧ a ≡ₚ array.
Proof.
  induction i as [|i IH]; intros k array Hi; [by exists array|].
  assert (Hj : rnd k mod (S i + 1) < length array).
  { pose proof (Nat.mod_upper_bound (rnd k) (S i + 1) ltac:(lia)). lia. }
  destruct (lookup_lt_is_Some_2 array (S i) Hi) as [temp Htemp].
  destruct (lookup_lt_is_Some_2 array _ Hj) as [aj Haj].
  change (CacheInfo.shuffle rnd k (S i) array)
    with (temp ← array !! S i;
          aj ← array !! (rnd k mod (S i + 1));
          CacheInfo.shuffle rnd (S k) i
            (<[rnd k mod (S i + 1) := temp]> (<[S i := aj]> array))).
  rewrite Htemp. cbn [mbind option_bind]. rewrite Haj. cbn [mbind option_bind].
  destruct (IH (S k) (<[rnd k mod (S i + 1) := temp]> (<[S i := aj]> array)))
    as (a & Ha & Hperm); [rewrite !length_insert; lia|].
  exists a. split; [exact Ha|]. rewrite Hperm.
  by apply Permutation_insert_swap.
Qed.

Lemma init_successors_lookup (count : nat) len : ∀ s (array : list nat) i,
  CacheInfo.init_successors array (seq s len) count !! i
  = if decide (s ≤ i < s + len ∧ i < length array)
    then Some ((i + 1) mod count) else array !! i.
Proof.
  induction len as [|len IH]; intros s array i; simpl.
  { rewrite decide_False by lia. done. }
  rewrite IH, length_insert.
  destruct (decide (i = s)) as [->|Hne].
  - rewrite decide_False by lia.
    destruct (decide (s < length array)).
    + rewrite decide_True by lia. by apply list_lookup_insert_eq.
    + rewrite decide_False by lia. by rewrite list_insert_ge by lia.
  - rewrite list_lookup_insert_ne by done.
    destruct (decide (S s ≤ i < S s + len ∧ i < length array)).
    + by rewrite decide_True by lia.
    + by rewrite decide_False by lia.
Qed.

(** After the first loop the array is 1, 2, ..., count - 1, 0. *)
Lemma init_successors_spec (array : list nat) (count : nat) :
  1 ≤ count → length array = count →
  CacheInfo.init_successors array (range 0 count) count
  = seq 1 (count - 1) ++ [0].
Proof.
  intros Hc Hlen. apply list_eq. intros i. unfold range.
  rewrite Nat.sub_0_r, init_successors_lookup.
  destruct (decide (i < count - 1)) as [Hlt|Hge].
  - rewrite decide_True by lia.
    rewrite lookup_app_l by (rewrite length_seq; lia).
    rewrite lookup_seq_lt by lia. rewrite Nat.mod_small by lia. f_equal. lia.
  - rewrite lookup_app_r by (rewrite length_seq; lia). rewrite length_seq.
    destruct (decide (i = count - 1)) as [->|Hne].
    + rewrite decide_True by lia. rewrite Nat.sub_diag.
      replace (count - 1 + 1) with count by lia.
      by rewrite Nat.Div0.mod_same.
    + rewrite decide_False by lia.
      rewrite lookup_ge_None_2 by lia.
      destruct (i - (count - 1)) as [|[|?]] eqn:E; [lia|done..].
Qed.

Lemma successors_permutation (count : nat) :
  1 ≤ count → seq 1 (count - 1) ++ [0] ≡ₚ seq 0 count.
Proof.
  intros Hc. destruct count as [|count]; [lia|]. simpl.
  rewrite Nat.sub_0_r. by rewrite <- Permutation_cons_append.
Qed.

(** In [cache_info_cores.c], whatever [rand()] returns, the chase array
    is a permutation of 0 .. count-1: every element is the successor of
    exactly one element and no link leaves the array. *)
Theorem cores_pointer_chase_permutation (rnd : nat → nat) (array : list nat)
    (count : nat) (Hcount : 1 ≤ count) (Hlen : length array = count) :
  ∃ a, CacheInfoCores.create_pointer_chase rnd array count = Some a
       ∧ a ≡ₚ seq 0 count.
Proof.
  unfold CacheInfoCores.create_pointer_chase. rewrite decide_False by lia.
  rewrite init_successors_spec by done.
  destruct (shuffle_permutation rnd (count - 1) 0 (seq 1 (count - 1) ++ [0]))
    as (a & Ha & Hperm).
  { rewrite length_app, length_seq. simpl. lia. }
  exists a. split; [exact Ha|]. by rewrite Hperm, successors_permutation.
Qed.

Lemma cores_pointer_chase_permutation_witness :
  ∃ a, CacheInfoCores.create_pointer_chase rand_zero [0; 0; 0; 0] 4 = Some a
       ∧ a ≡ₚ seq 0 4.
Proof.
  apply (cores_pointer_chase_permutation rand_zero [0; 0; 0; 0] 4);
    [lia|reflexivity].
Defined.

Lemma link_chase_spec (array : list nat) (n : nat) ix :
  ∀ pos (visited chase : list nat),
  Forall (λ i, i < length array) ix →
  (∀ i v, array !! i = Some v → v < n) →
  pos < n → length chase = n →
  ∃ c, CacheInfo.link_chase array ix pos visited chase = Some c
       ∧ length c = n
       ∧ (∀ i v, c !! i = Some v → v < n ∨ chase !! i = Some v)
       ∧ (ix ≠ [] → ∀ v, c !! pos = Some v → v < n).
Proof.
  induction ix as [|i ix IH]; intros pos visited chase Hix Harr Hpos Hlen; simpl.
  { exists chase. repeat split; [done|by right|done]. }
  apply Forall_cons in Hix as [Hi Hix].
  destruct (lookup_lt_is_Some_2 array i Hi) as [ai Hai]. rewrite Hai. simpl.
  rewrite decide_True by lia.
  pose proof (Harr i ai Hai) as Hlt.
  destruct (IH ai (<[pos := 1]> visited) (<[pos := ai]> chase) Hix Harr Hlt)
    as (c & Hc & Hclen & Hval & _); [by rewrite length_insert|].
  assert (Hval' : ∀ j v, c !! j = Some v → v < n ∨ chase !! j = Some v).
  { intros j v Hv. destruct (Hval j v Hv) as [?|Hins]; [by left|].
    destruct (decide (j = pos)) as [->|Hne].
    - rewrite list_lookup_insert_eq in Hins by lia. injection Hins as <-. by left.
    - rewrite list_lookup_insert_ne in Hins by done. by right. }
  exists c. repeat split; [done..|].
  intros _ v Hv. destruct (Hval pos v Hv) as [?|Hins]; [done|].
  rewrite list_lookup_insert_eq in Hins by lia. by injection Hins as <-.
Qed.

Lemma copy_back_lookup (chase : list nat) len : ∀ s (array : list nat),
  s + len ≤ length chase → length array = length chase →
  ∃ r, CacheInfo.copy_back array chase (seq s len) = Some r
       ∧ length r = length chase
       ∧ ∀ i, r !! i = if decide (s ≤ i < s + len) then chase !! i else array !! i.
Proof.
  induction len as [|len IH]; intros s array Hs Hlen; simpl.
  { exists array. repeat split; [done|]. intros i. by rewrite decide_False by lia. }
  destruct (lookup_lt_is_Some_2 chase s ltac:(lia)) as [ci Hci]. rewrite Hci. simpl.
  destruct (IH (S s) (<[s := ci]> array)) as (r & Hr & Hrlen & Hlook);
    [lia|by rewrite length_insert|].
  exists r. repeat split; [done..|]. intros i. rewrite Hlook.
  destruct (decide (i = s)) as [->|Hne].
  - rewrite decide_False, decide_True by lia.
    rewrite list_lookup_insert_eq by lia. done.
  - rewrite list_lookup_insert_ne by done.
    destruct (decide (S s ≤ i < S s + len)).
    + by rewrite decide_True by lia.
    + by rewrite decide_False by lia.
Qed.

(** In [cache_info.c], whatever [rand()] returns and whatever the fresh
    [chase] block holds, the builder stays inside its blocks and returns
    [count] links; the link of element 0 leads to an element, and every
    other link either leads to an element or is a word of the fresh
    block that was never written. *)
Theorem pointer_chase_links_or_unwritten (rnd : nat → nat) (heap array : list nat)
    (count : nat) (Hcount : 1 ≤ count) (Hlen : length array = count)
    (Hheap : count ≤ length heap) :
  ∃ a, CacheInfo.create_pointer_chase rnd heap array count = Some a
       ∧ length a = count
       ∧ (∃ v, a !! 0 = Some v ∧ v < count)
       ∧ ∀ i v, a !! i = Some v → v < count ∨ heap !! i = Some v.
Proof.
  unfold CacheInfo.create_pointer_chase. rewrite decide_False by lia.
  rewrite init_successors_spec by done.
  destruct (shuffle_permutation rnd (count - 1) 0 (seq 1 (count - 1) ++ [0]))
    as (p & -> & Hperm).
  { rewrite length_app, length_seq. simpl. lia. }
  rewrite successors_permutation in Hperm by done. cbn [mbind option_bind].
  assert (Hplen : length p = count) by (by rewrite Hperm, length_seq).
  assert (Hpval : ∀ i v, p !! i = Some v → v < count).
  { intros i v Hv. apply list_elem_of_lookup_2 in Hv. rewrite Hperm in Hv.
    apply elem_of_seq in Hv. lia. }
  destruct (link_chase_spec p count (range 0 count) 0 (replicate count 0)
              (take count heap)) as (c & -> & Hclen & Hval & Hzero);
    [|done|lia|rewrite length_take; lia|].
  { apply Forall_forall. intros i Hi%elem_of_seq. lia. }
  cbn [mbind option_bind]. unfold range. rewrite Nat.sub_0_r.
  destruct (copy_back_lookup c count 0 p) as (r & -> & Hrlen & Hlook); [lia..|].
  assert (Hr : ∀ i, r !! i = c !! i).
  { intros i. rewrite Hlook. destruct (decide (0 ≤ i < 0 + count)); [done|].
    rewrite !lookup_ge_None_2 by lia. done. }
  exists r. split; [done|]. split; [lia|]. split.
  - destruct (lookup_lt_is_Some_2 r 0 ltac:(lia)) as [v Hv].
    exists v. split; [done|]. rewrite Hr in Hv. apply Hzero; [|done].
    destruct count; [lia|done].
  - intros i v Hv. rewrite Hr in Hv. destruct (Hval i v Hv) as [?|Htake]; [by left|].
    right. apply lookup_take_Some in Htake as [? _]. done.
Qed.

Lemma pointer_chase_links_or_unwritten_witness :
  ∃ a, CacheInfo.create_pointer_chase rand_zero [7; 7] [0; 0] 2 = Some a
       ∧ length a = 2
       ∧ (∃ v, a !! 0 = Some v ∧ v < 2)
       ∧ ∀ i v, a !! i = Some v → v < 2 ∨ [7; 7] !! i = Some v.
Proof.
  apply (pointer_chase_links_or_unwritten rand_zero [7; 7] [0; 0] 2);
    [lia|reflexivity|simpl; lia].
Defined.

(** ** The page chase of the TLB probe *)








Example tlb_chase_four_pages :
  fst <$> TlbChase.build_chase rand_zero [0; 0; 0; 0] 4096 4 ∅ = Some [1; 2; 3; 0].
Proof. vm_compute. reflexivity. Qed.

(** ** The two tiers of the core-class program *)

Lemma cores_sizes_positive i (x : Z) :
  CoresCacheSizes.sizes !! i = Some x → (0 < x)%Z.
Proof.
  assert (H : Forall (λ z, 0 < z)%Z CoresCacheSizes.sizes)
    by (repeat constructor; lia).
  intros Hi. by apply (Forall_lookup_1 _ _ _ _ H Hi).
Qed.

Lemma cores_sizes_increasing i j (x y : Z) :
  i < j → CoresCacheSizes.sizes !! i = Some x →
  CoresCacheSizes.sizes !! j = Some y → (x < y)%Z.
Proof.
  apply sorted_lookup_lt.
  repeat (apply SSorted_cons; [|repeat constructor; lia]). constructor.
Qed.

Lemma cores_first_jump_keep n q size :
  cores_first_jump n q size → (size = 0%Z → q n = false) →
  cores_first_jump (S n) q size.
Proof.
  intros [[-> Hno]|(s & Hs & Hsz & Hq & Hfirst)] Hn.
  - left. split; [done|]. intros s Hs.
    destruct (decide (s = n)) as [->|]; [by apply Hn|apply Hno; lia].
  - right. exists s. split; [lia|done].
Qed.

Lemma cores_first_jump_latch n q size :
  1 ≤ n → cores_first_jump n q 0 → q n = true →
  CoresCacheSizes.sizes !! (n - 1) = Some size →
  cores_first_jump (S n) q size.
Proof.
  intros Hn [[_ Hno]|(s & _ & Hsz & _)] Hq Hsize.
  - right. exists n. split; [lia|]. do 2 (split; [done|]). done.
  - apply cores_sizes_positive in Hsz. lia.
Qed.

Lemma cores_cache_sizes_scan_inv (times : list double) len : ∀ a l1 l2,
  1 ≤ a → a + len ≤ length times →
  a + len ≤ S (length CoresCacheSizes.sizes) →
  cores_first_jump a (cores_l1_jump times) l1 →
  cores_first_jump a (cores_l2_jump times) l2 →
  ∃ l1' l2', CoresCacheSizes.cache_sizes_scan times (seq a len) (l1, l2)
             = Some (l1', l2')
             ∧ cores_first_jump (a + len) (cores_l1_jump times) l1'
             ∧ cores_first_jump (a + len) (cores_l2_jump times) l2'.
Proof.
  induction len as [|len IH]; intros a l1 l2 Ha Hlen Hsz H1 H2.
  { exists l1, l2. split; [done|]. by replace (a + 0) with a by lia. }
  destruct (ratio_defined times a ltac:(lia)) as [r Hr].
  destruct (lookup_lt_is_Some_2 CoresCacheSizes.sizes (a - 1) ltac:(lia))
    as [sz Hsize].
  cbn [seq CoresCacheSizes.cache_sizes_scan].
  unfold CoresCacheSizes.cache_sizes_step. rewrite Hr, Hsize.
  cbn [mbind option_bind]. replace (a + S len) with (S a + len) by lia.
  assert (J1 : cores_l1_jump times a = (sz <=? 128*1024)%Z && (1.3 <? r)%float)
    by (unfold cores_l1_jump, jump; by rewrite Hsize, Hr).
  assert (J2 : cores_l2_jump times a = (128*1024 <? sz)%Z && (1.3 <? r)%float)
    by (unfold cores_l2_jump, jump; by rewrite Hsize, Hr).
  destruct ((l1 =? 0)%Z && (sz <=? 128*1024)%Z && (1.3 <? r)%float) eqn:B1.
  { apply andb_prop in B1 as [[E1%Z.eqb_eq Hr1%Z.leb_le]%andb_prop Hj]. subst l1.
    apply IH; [lia..| |].
    - apply cores_first_jump_latch; [done..| |done].
      rewrite J1, Hj. by apply andb_true_intro, conj; [apply Z.leb_le|].
    - apply cores_first_jump_keep; [done|]. intros _. rewrite J2.
      destruct (Z.ltb_spec (128*1024) sz); [lia|done]. }
  destruct ((l2 =? 0)%Z && (128*1024 <? sz)%Z && (1.3 <? r)%float) eqn:B2.
  { apply andb_prop in B2 as [[E2%Z.eqb_eq Hr2%Z.ltb_lt]%andb_prop Hj]. subst l2.
    apply IH; [lia..| |].
    - apply cores_first_jump_keep; [done|]. intros _. rewrite J1.
      destruct (Z.leb_spec sz (128*1024)); [lia|done].
    - apply cores_first_jump_latch; [done..| |done].
      rewrite J2, Hj. by apply andb_true_intro, conj; [apply Z.ltb_lt|]. }
  apply IH; [lia..| |].
  - apply cores_first_jump_keep; [done|]. intros ->. by rewrite J1.
  - apply cores_first_jump_keep; [done|]. intros ->. by rewrite J2.
Qed.

(** In [cache_info_cores.c], for every latency curve over the 17
    footprints, L1 is the footprint before the first ratio above 1.3
    that follows a footprint of at most 128 KiB, L2 the footprint before
    the first ratio above 1.3 that follows a larger footprint, each 0
    when there is no such ratio; so L1 is at most 128 KiB, L2 is between
    192 KiB and 8 MiB, and the largest footprint, 16 MiB, is never
    reported. *)
Theorem cores_cache_sizes_first_jumps (times : list double)
    (Hlen : CoresCacheSizes.num_sizes ≤ length times) :
  ∃ l1 l2,
    CoresCacheSizes.detect_cache_sizes times = Some (l1, l2)
    ∧ cores_first_jump CoresCacheSizes.num_sizes (cores_l1_jump times) l1
    ∧ cores_first_jump CoresCacheSizes.num_sizes (cores_l2_jump times) l2
    ∧ (l1 = 0 ∨ 8*1024 ≤ l1 ≤ 128*1024)%Z
    ∧ (l2 = 0 ∨ 192*1024 ≤ l2 ≤ 8*1024*1024)%Z.
Proof.
  change CoresCacheSizes.num_sizes with 17 in *.
  destruct (cores_cache_sizes_scan_inv times 16 1 0%Z 0%Z)
    as (l1 & l2 & Hscan & H1 & H2); [simpl; lia..| | |].
  { left. split; [done|intros; lia]. }
  { left. split; [done|intros; lia]. }
  exists l1, l2. do 3 (split; [done|]). split.
  - destruct H1 as [[-> _]|(s & Hs & Hsz & Hq & _)]; [by left|right].
    unfold cores_l1_jump in Hq. rewrite Hsz in Hq.
    apply andb_prop in Hq as [?%Z.leb_le _].
    destruct (decide (s - 1 = 0)) as [E|E].
    + rewrite E in Hsz. injection Hsz as <-. lia.
    + pose proof (cores_sizes_increasing 0 (s - 1) (8*1024) l1
                    ltac:(lia) eq_refl Hsz). lia.
  - destruct H2 as [[-> _]|(s & Hs & Hsz & Hq & _)]; [by left|right].
    unfold cores_l2_jump in Hq. rewrite Hsz in Hq.
    apply andb_prop in Hq as [?%Z.ltb_lt _].
    assert (6 < s - 1).
    { destruct (decide (6 < s - 1)) as [|E]; [done|].
      destruct (decide (s - 1 = 6)) as [E6|E6].
      - rewrite E6 in Hsz. injection Hsz as <-. lia.
      - pose proof (cores_sizes_increasing (s - 1) 6 l2 (128*1024)
                      ltac:(lia) Hsz eq_refl). lia. }
    split.
    + destruct (decide (s - 1 = 7)) as [E7|E7].
      * rewrite E7 in Hsz. injection Hsz as <-. lia.
      * pose proof (cores_sizes_increasing 7 (s - 1) (192*1024) l2
                      ltac:(lia) eq_refl Hsz). lia.
    + destruct (decide (s - 1 = 15)) as [E15|E15].
      * rewrite E15 in Hsz. injection Hsz as <-. lia.
      * pose proof (cores_sizes_increasing (s - 1) 15 l2 (8*1024*1024)
                      ltac:(lia) Hsz eq_refl). lia.
Qed.

Lemma cores_cache_sizes_first_jumps_witness :
  ∃ l1 l2,
    CoresCacheSizes.detect_cache_sizes (replicate 3 1%float ++ replicate 14 3%float) = Some (l1, l2)
    ∧ cores_first_jump CoresCacheSizes.num_sizes
        (cores_l1_jump (replicate 3 1%float ++ replicate 14 3%float)) l1
    ∧ cores_first_jump CoresCacheSizes.num_sizes
        (cores_l2_jump (replicate 3 1%float ++ replicate 14 3%float)) l2
    ∧ (l1 = 0 ∨ 8*1024 ≤ l1 ≤ 128*1024)%Z
    ∧ (l2 = 0 ∨ 192*1024 ≤ l2 ≤ 8*1024*1024)%Z.
Proof.
  apply (cores_cache_sizes_first_jumps (replicate 3 1%float ++ replicate 14 3%float)).
  vm_compute. lia.
Defined.

(** ** What the report prints *)



Example report_of_1536K :
  CacheInfo.detect_cache_sizes jump_after_1536K = Some (0, 1536 * 1024, 0)%Z
  ∧ Report.size_lines 0 (1536 * 1024) 0
    = [(Report.L1, 0%Z, Report.KB); (Report.L2, 1%Z, Report.MB)].
Proof. split; vm_compute; reflexivity. Qed.

Lemma cores_sample_cache_sizes_total (malloc_ok : nat → bool) (elapsed : nat → Z) ss :
  Forall (λ s, s < length CoresCacheSizes.sizes) ss →
  ∃ curve, CoresCacheSizes.sample_cache_sizes malloc_ok elapsed ss = Some curve
           ∧ length curve ≤ length ss.
Proof.
  induction 1 as [|s ss Hs _ (rest & IH & Hlen)]; simpl.
  { exists []. split; [done|simpl; lia]. }
  destruct (lookup_lt_is_Some_2 CoresCacheSizes.sizes s Hs) as [size ->]. simpl.
  destruct (malloc_ok s); simpl.
  - rewrite IH. simpl. eexists. split; [done|]. simpl. lia.
  - exists []. split; [done|simpl; lia].
Qed.

(** In [cache_info_cores.c], whichever allocations fail, whatever the
    ticks and whatever [times] held before: [probe_cache_sizes] returns
    an L1 size of at most 128 KiB and an L2 size above 128 KiB (each may
    be 0), and on every size line [run_tests] prints, the number times
    its unit is exactly the size of that tier. *)
Theorem cores_sizes_and_report (malloc_ok : nat → bool) (elapsed : nat → Z)
    (stack : list double) (Hstack : length stack = 17) :
  ∃ l1 l2,
    CoresCacheSizes.probe_cache_sizes malloc_ok elapsed stack = Some (l1, l2)
    ∧ (l1 = 0 ∨ l1 ∈ CoresCacheSizes.sizes ∧ l1 ≤ 128*1024)%Z
    ∧ (l2 = 0 ∨ l2 ∈ CoresCacheSizes.sizes ∧ 128*1024 < l2)%Z
    ∧ ∀ t n u, (t, n, u) ∈ Report.cores_size_lines l1 l2 →
        (t = Report.L1 ∧ n * Report.bytes_of u = l1)%Z
        ∨ (t = Report.L2 ∧ n * Report.bytes_of u = l2)%Z.
Proof.
  unfold CoresCacheSizes.probe_cache_sizes.
  destruct (cores_sample_cache_sizes_total malloc_ok elapsed
              (range 0 CoresCacheSizes.num_sizes)) as (curve & -> & Hlen).
  { apply Forall_forall. intros s Hs%elem_of_seq. simpl in *. lia. }
  cbn [mbind option_bind].
  change (length (range 0 CoresCacheSizes.num_sizes)) with 17 in Hlen.
  set (times := store_prefix stack curve).
  assert (Htimes : length times = 17).
  { unfold times. rewrite store_prefix_length; lia. }
  destruct (cores_cache_sizes_scan_inv times 16 1 0%Z 0%Z)
    as (l1 & l2 & Hscan & H1 & H2); [rewrite ?Htimes; simpl; lia..| | |].
  { left. split; [done|intros; lia]. }
  { left. split; [done|intros; lia]. }
  exists l1, l2. split; [exact Hscan|].
  assert (V1 : (l1 = 0 ∨ l1 ∈ CoresCacheSizes.sizes ∧ l1 ≤ 128*1024)%Z).
  { destruct H1 as [[-> _]|(s & Hs & Hsz & Hq & _)]; [by left|right].
    split; [by eapply list_elem_of_lookup_2|].
    unfold cores_l1_jump in Hq. rewrite Hsz in Hq.
    by apply andb_prop in Hq as [?%Z.leb_le _]. }
  assert (V2 : (l2 = 0 ∨ l2 ∈ CoresCacheSizes.sizes ∧ 128*1024 < l2)%Z).
  { destruct H2 as [[-> _]|(s & Hs & Hsz & Hq & _)]; [by left|right].
    split; [by eapply list_elem_of_lookup_2|].
    unfold cores_l2_jump in Hq. rewrite Hsz in Hq.
    by apply andb_prop in Hq as [?%Z.ltb_lt _]. }
  do 2 (split; [done|]).
  intros t n u Hin. unfold Report.cores_size_lines in Hin.
  apply elem_of_app in Hin as [Hin|Hin].
  - apply list_elem_of_singleton in Hin. injection Hin as -> -> ->. left.
    split; [done|]. destruct V1 as [->|[Hin _]]; [done|].
    elem_cases Hin; reflexivity.
  - destruct V2 as [->|[Hl2 Hb]]; [by apply elem_of_nil in Hin|].
    destruct (Z.ltb_spec 0 l2); [|lia].
    apply list_elem_of_singleton in Hin. right.
    elem_cases Hl2; try lia; injection Hin as -> -> ->; done.
Qed.

Lemma cores_sizes_and_report_witness :
  ∃ l1 l2,
    CoresCacheSizes.probe_cache_sizes third_malloc_fails ticks_doubling
      (replicate 17 0%float) = Some (l1, l2)
    ∧ (l1 = 0 ∨ l1 ∈ CoresCacheSizes.sizes ∧ l1 ≤ 128*1024)%Z
    ∧ (l2 = 0 ∨ l2 ∈ CoresCacheSizes.sizes ∧ 128*1024 < l2)%Z
    ∧ ∀ t n u, (t, n, u) ∈ Report.cores_size_lines l1 l2 →
        (t = Report.L1 ∧ n * Report.bytes_of u = l1)%Z
        ∨ (t = Report.L2 ∧ n * Report.bytes_of u = l2)%Z.
Proof.
  apply (cores_sizes_and_report third_malloc_fails ticks_doubling
           (replicate 17 0%float)).
  reflexivity.
Defined.

(** ** The timed region *)

Lemma uint64_small (z : Z) : (0 ≤ z < 2 ^ 64)%Z → Timing.uint64 z = z.
Proof. intros Hz. unfold Timing.uint64. by apply Z.mod_small. Qed.

Lemma uint64_sub (a b : Z) :
  Timing.uint64 (Timing.uint64 a - Timing.uint64 b) = Timing.uint64 (a - b).
Proof. unfold Timing.uint64. by rewrite <- Zminus_mod. Qed.

Lemma uint64_add (a b : Z) :
  Timing.uint64 (Timing.uint64 a + Timing.uint64 b) = Timing.uint64 (a + b).
Proof. unfold Timing.uint64. by rewrite <- Zplus_mod. Qed.

Lemma uint64_idemp (a : Z) : Timing.uint64 (Timing.uint64 a) = Timing.uint64 a.
Proof. unfold Timing.uint64. by rewrite Zmod_mod. Qed.

Lemma timed_passes_mod (T : nat → Z) iters : ∀ k total,
  Timing.timed_passes (λ k, Timing.uint64 (T k)) k iters (Timing.uint64 total)
  = Timing.uint64 (total + ticks_passed T k iters).
Proof.
  induction iters as [|iters IH]; intros k total; simpl.
  { by rewrite Z.add_0_r. }
  rewrite uint64_sub, uint64_add, IH. f_equal. lia.
Qed.

(** A counter that wraps around does not spoil the total: if the k-th
    reading of the counter is the time [T k] modulo 2^64, time does not
    run backwards, and the timed passes together take less than 2^64
    ticks, then [total_time] is exactly the number of ticks that passed
    inside the passes, however often the counter wrapped. *)
Theorem total_time_survives_wraparound (T : nat → Z) (iters : nat)
    (Hmono : ∀ k, (T k ≤ T (S k))%Z)
    (Hfit : (ticks_passed T 0 iters < 2 ^ 64)%Z) :
  Timing.timed_passes (λ k, Timing.uint64 (T k)) 0 iters 0
  = ticks_passed T 0 iters.
Proof.
  change 0%Z with (Timing.uint64 0) at 1.
  rewrite timed_passes_mod. apply uint64_small. split; [|simpl; lia].
  clear Hfit. generalize 0 at 1. induction iters as [|iters IH]; intros k; simpl.
  - lia.
  - specialize (IH (S (S k))). specialize (Hmono k). lia.
Qed.

Lemma total_time_survives_wraparound_witness :
  Timing.timed_passes (λ k, Timing.uint64 (2 ^ 64 - 5 + 10 * Z.of_nat k)) 0 3 0
  = ticks_passed (λ k, 2 ^ 64 - 5 + 10 * Z.of_nat k)%Z 0 3.
Proof.
  apply (total_time_survives_wraparound (λ k, 2 ^ 64 - 5 + 10 * Z.of_nat k)%Z 3).
  - intros k. lia.
  - vm_compute. reflexivity.
Defined.

Lemma halves_disjoint (lo hi : Z) :
  (0 ≤ lo < 2 ^ 32)%Z → Z.land (Z.shiftl hi 32) lo = 0%Z.
Proof.
  intros Hlo. apply Z.bits_inj'. intros n Hn.
  rewrite Z.land_spec, Z.bits_0.
  destruct (Z.lt_ge_cases n 32) as [Hlt|Hge].
  - by rewrite Z.shiftl_spec_low by lia.
  - destruct (decide (lo = 0%Z)) as [->|Hne].
    + by rewrite Z.bits_0, andb_false_r.
    + rewrite (Z.bits_above_log2 lo n), andb_false_r; [done|lia|].
      assert (Z.log2 lo < 32)%Z by (apply Z.log2_lt_pow2; lia). lia.
Qed.

(** On x86 the counter is put together from two 32-bit halves without
    losing a bit: its value is [hi * 2^32 + lo], and both halves can be
    read back from it. *)
Theorem get_time_keeps_both_halves (lo hi : Z)
    (Hlo : (0 ≤ lo < 2 ^ 32)%Z) (Hhi : (0 ≤ hi < 2 ^ 32)%Z) :
  Timing.get_time lo hi = (hi * 2 ^ 32 + lo)%Z
  ∧ (Timing.get_time lo hi / 2 ^ 32 = hi)%Z
  ∧ (Timing.get_time lo hi mod 2 ^ 32 = lo)%Z.
Proof.
  assert (Hval : Timing.get_time lo hi = (hi * 2 ^ 32 + lo)%Z).
  { unfold Timing.get_time.
    pose proof (Z.add_lor_land (Z.shiftl hi 32) lo) as Hadd.
    rewrite (halves_disjoint lo hi Hlo), Z.add_0_r in Hadd. rewrite Hadd.
    rewrite Z.shiftl_mul_pow2 by lia. apply uint64_small. nia. }
  rewrite Hval. split; [done|]. split.
  - rewrite Z.div_add_l by lia. rewrite Z.div_small by lia. lia.
  - rewrite Z.add_comm, Z.mod_add by lia. by apply Z.mod_small.
Qed.

Lemma get_time_keeps_both_halves_witness :
  Timing.get_time 7 3 = (3 * 2 ^ 32 + 7)%Z
  ∧ (Timing.get_time 7 3 / 2 ^ 32 = 3)%Z
  ∧ (Timing.get_time 7 3 mod 2 ^ 32 = 7)%Z.
Proof. apply (get_time_keeps_both_halves 7 3); lia. Defined.
